(** * The mem0 memory gateway of [backend/core/memory/memory_client.py]

    A shallow embedding of the [MemoryClient] class and of the module-level
    accessor [get_memory_client], followed by the properties the
    specification states about them.

    The Python code is effectful: it calls methods of a remote client
    object, writes to a logger, raises and catches exceptions and, in
    [add], updates a dictionary the caller may still hold.  All of this is
    made explicit in a small state-and-exception monad [Py] over a [World]
    that records the calls made to the mem0 library, the dictionaries on
    the heap and the log. *)

From stdpp Require Import gmap strings list fin_maps pretty.
From Stdlib Require Import ZArith.

Local Open Scope Z_scope.
Local Open Scope string_scope.
Local Open Scope list_scope.

(** ** Python values *)

(** The values that cross the gateway: what the remote client returns and
    what the caller stores in a metadata mapping.  [VObj cls] stands for an
    instance of any other class [cls] (a float, a response object): it is
    neither a [dict] nor a [list] and has no [__len__]. *)
#[warnings="-register-all"]
Inductive PyValue : Type :=
  | VNone
  | VBool (b : bool)
  | VInt (z : Z)
  | VStr (s : string)
  | VList (l : list PyValue)
  | VDict (d : gmap string PyValue)
  | VObj (cls : string).

(** [Dict[str, Any]] *)
Abbreviation dict := (gmap string PyValue).

(** [type(v).__name__] *)
Definition type_name (v : PyValue) : string :=
  match v with
  | VNone => "NoneType"
  | VBool _ => "bool"
  | VInt _ => "int"
  | VStr _ => "str"
  | VList _ => "list"
  | VDict _ => "dict"
  | VObj cls => cls
  end.

(** An [Optional[str]] argument seen as a Python value. *)
Definition of_optional (o : option string) : PyValue :=
  match o with
  | Some s => VStr s
  | None => VNone
  end.

(** Truth value of an [Optional[str]]: [None] and [""] are false. *)
Definition truthy (o : option string) : bool :=
  match o with
  | Some s => negb (String.eqb s "")
  | None => false
  end.

(** [isinstance(v, dict)] and [isinstance(v, list)] *)
Definition is_dict (v : PyValue) : bool :=
  match v with VDict _ => true | _ => false end.

Definition is_list (v : PyValue) : bool :=
  match v with VList _ => true | _ => false end.

(** ** Exceptions and outcomes *)

(** Instances of Python's [Exception], the class every handler of the
    module names ([except Exception as e]).  [exc_msg] is [str(e)].
    Exceptions outside that class ([KeyboardInterrupt], [SystemExit])
    are told apart from these in [Interruptible] below. *)
Record Exception : Type := mkException {
  exc_class : string;
  exc_msg : string
}.

Inductive outcome (A : Type) : Type :=
  | Return (a : A)
  | Raise (e : Exception).

Arguments Return {A} a.
Arguments Raise {A} e.

Definition TypeError (msg : string) : Exception :=
  mkException "TypeError" msg.

Definition AttributeError (msg : string) : Exception :=
  mkException "AttributeError" msg.

(** [len(v)]: defined on strings, lists and mappings, a [TypeError]
    elsewhere. *)
Definition len (v : PyValue) : outcome nat :=
  match v with
  | VStr s => Return (String.length s)
  | VList l => Return (length l)
  | VDict d => Return (size d)
  | _ => Raise (TypeError ("object of type '" +:+ type_name v +:+ "' has no len()"))
  end.

(** ** The mem0 library *)

(** A call into the mem0 library, with the arguments the gateway passes.
    [Mem0_add] carries the identity of the metadata dictionary and its
    contents at the time of the call. *)
Inductive Mem0Call : Type :=
  | Mem0_init (api_key : option string)
  | Mem0_search (query : string) (agent_id : option string) (top_k : Z)
                (filters : dict)
  | Mem0_add (messages : list (gmap string string)) (user_id : option string)
             (metadata : nat) (metadata_items : dict)
  | Mem0_get_all (user_id : option string) (limit : Z)
  | Mem0_delete (memory_id : string).

(** The remote client object, [mem0.MemoryClient].  Nothing is known about
    it: [respond] gives, for the calls made so far and the call at hand,
    either the returned value or the exception raised. *)
Record Mem0Client : Type := mkMem0Client {
  respond : list Mem0Call -> Mem0Call -> outcome PyValue
}.

(** ** The world and the monad *)

Inductive LogLevel : Type := DEBUG | INFO | WARNING | ERROR.

Record World : Type := mkWorld {
  mem0_calls : list Mem0Call;      (* calls into mem0, oldest first *)
  heap : list dict;                (* dictionaries, by identity *)
  log : list (LogLevel * string)   (* records written to [logger] *)
}.

Definition Py (A : Type) : Type := World -> outcome A * World.

Definition ret {A} (a : A) : Py A := fun w => (Return a, w).

Definition raise {A} (e : Exception) : Py A := fun w => (Raise e, w).

Definition bind {A B} (m : Py A) (k : A -> Py B) : Py B :=
  fun w =>
    match m w with
    | (Return a, w') => k a w'
    | (Raise e, w') => (Raise e, w')
    end.

(** [try: body / except Exception as e: handler e].  What [body] did to
    the world before it raised stays done. *)
Definition try_except {A} (body : Py A) (handler : Exception -> Py A) : Py A :=
  fun w =>
    match body w with
    | (Return a, w') => (Return a, w')
    | (Raise e, w') => handler e w'
    end.

Definition lift {A} (o : outcome A) : Py A := fun w => (o, w).

Notation "'let!' x ':=' m 'in' k" := (bind m (fun x => k))
  (at level 10, x name, m at level 100, k at level 200).
Notation "m '>>' k" := (bind m (fun _ => k))
  (at level 90, right associativity).

(** [logger.debug], [logger.info], [logger.error] *)
Definition logger (lvl : LogLevel) (msg : string) : Py unit :=
  fun w => (Return tt,
            mkWorld (mem0_calls w) (heap w) (log w ++ [(lvl, msg)])).

(** A dictionary display [{...}] evaluated as a new object. *)
Definition new_dict (d : dict) : Py nat :=
  fun w => (Return (length (heap w)),
            mkWorld (mem0_calls w) (heap w ++ [d]) (log w)).

(** [d[key] = v] on the dictionary at [l] *)
Definition setitem (l : nat) (key : string) (v : PyValue) : Py unit :=
  fun w => (Return tt,
            mkWorld (mem0_calls w)
                    (match heap w !! l with
                     | Some d => <[l := <[key := v]> d]> (heap w)
                     | None => heap w
                     end)
                    (log w)).

(** The contents of the dictionary at [l] ([∅] for no dictionary). *)
Definition items (h : list dict) (l : nat) : dict :=
  default ∅ (h !! l).

Definition read_dict (l : nat) : Py dict :=
  fun w => (Return (items (heap w) l), w).

(** Truth value of an [Optional[Dict]]: [None] and [{}] are false. *)
Definition truthy_dict (h : list dict) (o : option nat) : bool :=
  match o with
  | Some l =>
      match h !! l with
      | Some d => negb (bool_decide (d = ∅))
      | None => false
      end
  | None => false
  end.

(** [metadata or {}]: the caller's dictionary itself when it is a
    non-empty mapping, a new empty dictionary otherwise. *)
Definition or_new_dict (metadata : option nat) : Py nat :=
  fun w =>
    match metadata with
    | Some l => if truthy_dict (heap w) metadata then ret l w
                else new_dict ∅ w
    | None => new_dict ∅ w
    end.

(** One call into mem0: it is recorded, and the library answers. *)
Definition mem0 {A} (answer : list Mem0Call -> outcome A) (c : Mem0Call) : Py A :=
  fun w => (answer (mem0_calls w),
            mkWorld (mem0_calls w ++ [c]) (heap w) (log w)).

(** [self.client.<name>(...)]: an attribute access on [None] raises
    before any call is made. *)
Definition call_client (client : option Mem0Client) (name : string)
    (c : Mem0Call) : Py PyValue :=
  match client with
  | Some cl => mem0 (fun past => respond cl past c) c
  | None =>
      raise (AttributeError
               ("'NoneType' object has no attribute '" +:+ name +:+ "'"))
  end.

(** ** The module's environment *)

(** What the module finds when it is imported and when a gateway is
    constructed: whether [from mem0 import MemoryClient] succeeded, the
    value of [config.MEMO_API_KEY] (the [config] object belongs to another
    module, [core.utils.config]), and what calling the class
    [Mem0Client(api_key=...)] does. *)
Record Env : Type := mkEnv {
  MEM0_AVAILABLE : bool;
  MEMO_API_KEY : option string;
  Mem0Client_new : list Mem0Call -> option string -> outcome Mem0Client
}.

(** [a or b] on two [Optional[str]] *)
Definition or_else (a b : option string) : option string :=
  if truthy a then a else b.

(** ** The gateway: class [MemoryClient] *)

Module MemoryClient.

(** The attributes [__init__] sets. *)
Record t : Type := mk {
  api_key : option string;
  enabled : bool;
  client : option Mem0Client
}.

Definition __init__ (env : Env) (api_key : option string) : Py t :=
  let self_api_key := or_else api_key (MEMO_API_KEY env) in
  let self_enabled := MEM0_AVAILABLE env && truthy self_api_key in
  if negb self_enabled then
    (if negb (MEM0_AVAILABLE env) then
       logger INFO "Memory features disabled: mem0ai library not installed"
     else if negb (truthy self_api_key) then
       logger INFO "Memory features disabled: MEMO_API_KEY not configured"
     else ret tt) >>
    ret (mk self_api_key self_enabled None)
  else
    try_except
      (let! cl := mem0 (fun past => Mem0Client_new env past self_api_key)
                       (Mem0_init self_api_key) in
       logger INFO "✅ Memory client initialized successfully" >>
       ret (mk self_api_key self_enabled (Some cl)))
      (fun e =>
         logger ERROR ("Failed to initialize memory client: " +:+ exc_msg e) >>
         ret (mk self_api_key false None)).

Definition search (self : t) (query : string)
    (user_id agent_id : option string) (limit : Z) : Py PyValue :=
  if negb (enabled self) then ret (VList [])
  else
    try_except
      (let filters : dict := ∅ in
       let filters :=
         if truthy user_id
         then <["user_id" := of_optional user_id]> filters else filters in
       let filters :=
         if truthy agent_id
         then <["agent_id" := of_optional agent_id]> filters else filters in
       let! result :=
         call_client (client self) "search"
           (Mem0_search query agent_id limit
                        {["user_id" := of_optional user_id]}) in
       let memories :=
         match result with
         | VDict d => default (VList []) (d !! "results")
         | _ => VList []
         end in
       let! n := lift (len memories) in
       logger DEBUG ("Found " +:+ pretty n
                     +:+ " relevant memories for query: "
                     +:+ String.substring 0 50 query +:+ "...") >>
       ret memories)
      (fun e =>
         logger ERROR ("Error searching memories: " +:+ exc_msg e) >>
         ret (VList [])).

Definition add (self : t) (messages : list (gmap string string))
    (user_id agent_id : option string) (metadata : option nat) : Py bool :=
  if negb (enabled self) then ret false
  else
    try_except
      (let! add_metadata := or_new_dict metadata in
       (if truthy agent_id
        then setitem add_metadata "agent_id" (of_optional agent_id)
        else ret tt) >>
       let! now := read_dict add_metadata in
       call_client (client self) "add"
         (Mem0_add messages user_id add_metadata now) >>
       logger DEBUG ("Added memories from " +:+ pretty (length messages)
                     +:+ " messages") >>
       ret true)
      (fun e =>
         logger ERROR ("Error adding memories: " +:+ exc_msg e) >>
         ret false).

Definition get_all (self : t) (user_id agent_id : option string)
    (limit : Z) : Py PyValue :=
  if negb (enabled self) then ret (VList [])
  else
    try_except
      (let filters : dict := ∅ in
       let filters :=
         if truthy agent_id
         then <["agent_id" := of_optional agent_id]> filters else filters in
       let! result :=
         call_client (client self) "get_all" (Mem0_get_all user_id limit) in
       let memories := if is_list result then result else VList [] in
       let! n := lift (len memories) in
       logger DEBUG ("Retrieved " +:+ pretty n +:+ " total memories") >>
       ret memories)
      (fun e =>
         logger ERROR ("Error getting all memories: " +:+ exc_msg e) >>
         ret (VList [])).

Definition delete (self : t) (memory_id : string) : Py bool :=
  if negb (enabled self) then ret false
  else
    try_except
      (call_client (client self) "delete" (Mem0_delete memory_id) >>
       logger DEBUG ("Deleted memory: " +:+ memory_id) >>
       ret true)
      (fun e =>
         logger ERROR ("Error deleting memory: " +:+ exc_msg e) >>
         ret false).

End MemoryClient.

(** Default values of the keyword arguments. *)
Definition search_default_limit : Z := 5.
Definition get_all_default_limit : Z := 100.

(** ** The process-wide accessor *)

(** The state of the process: the world, the gateway objects constructed
    so far (an object's identity is its position) and the module global
    [_memory_client]. *)
Record Process : Type := mkProcess {
  world : World;
  objects : list MemoryClient.t;
  _memory_client : option nat
}.

(** The state right after the module is imported. *)
Definition imported (w : World) : Process := mkProcess w [] None.

(** [MemoryClient()] evaluated as a new object. *)
Definition new_MemoryClient (env : Env) (p : Process) : outcome nat * Process :=
  match MemoryClient.__init__ env None (world p) with
  | (Return self, w') =>
      (Return (length (objects p)),
       mkProcess w' (objects p ++ [self]) (_memory_client p))
  | (Raise e, w') => (Raise e, mkProcess w' (objects p) (_memory_client p))
  end.

Definition get_memory_client (env : Env) (p : Process)
    : outcome (option nat) * Process :=
  match _memory_client p with
  | None =>
      match new_MemoryClient env p with
      | (Return r, p') =>
          let p'' := mkProcess (world p') (objects p') (Some r) in
          (Return (_memory_client p''), p'')
      | (Raise e, p') => (Raise e, p')
      end
  | Some _ => (Return (_memory_client p), p)
  end.

(** [n] calls of the accessor in sequence: the values returned, and the
    final state. *)
Fixpoint get_memory_client_times (n : nat) (env : Env) (p : Process)
    : list (outcome (option nat)) * Process :=
  match n with
  | O => ([], p)
  | S n' =>
      let '(r, p') := get_memory_client env p in
      let '(rs, p'') := get_memory_client_times n' env p' in
      (r :: rs, p'')
  end.

(** ** Vocabulary of the statements *)

(** The calls into mem0 made between two worlds. *)
Definition calls_made (w w' : World) : list Mem0Call :=
  drop (length (mem0_calls w)) (mem0_calls w').

(** From [w] to [w'] at most one call into mem0 was added. *)
Definition at_most_once (w w' : World) : Prop :=
  ∃ cs, mem0_calls w' = mem0_calls w ++ cs ∧ (length cs ≤ 1)%nat.

(** Between [w] and [w'] the gateway called its client, and the client
    raised. *)
Definition transport_error (self : MemoryClient.t) (w w' : World) : Prop :=
  ∃ cl c e,
    MemoryClient.client self = Some cl ∧
    mem0_calls w' = mem0_calls w ++ [c] ∧
    respond cl (mem0_calls w) c = Raise e.

(** The metadata the caller provided, or an empty mapping if none was. *)
Definition provided (h : list dict) (metadata : option nat) : dict :=
  match metadata with
  | Some l => items h l
  | None => ∅
  end.

(** The memories [search] extracts from the value the client returned:
    [result.get("results", []) if isinstance(result, dict) else []]. *)
Definition extract_results (result : PyValue) : PyValue :=
  match result with
  | VDict d => default (VList []) (d !! "results")
  | _ => VList []
  end.

(** The value [search] returns once the client has answered [r]. *)
Definition search_value (r : outcome PyValue) : PyValue :=
  match r with
  | Return result =>
      match len (extract_results result) with
      | Return _ => extract_results result
      | Raise _ => VList []
      end
  | Raise _ => VList []
  end.

Definition get_all_value (r : outcome PyValue) : PyValue :=
  match r with
  | Return result => if is_list result then result else VList []
  | Raise _ => VList []
  end.

Definition succeeded {A} (r : outcome A) : bool :=
  match r with Return _ => true | Raise _ => false end.

(** Has the value a length?  Sequences (lists, strings) and mappings do. *)
Definition sized (v : PyValue) : bool := succeeded (len v).

(** [add_metadata] after the merge of [agent_id]. *)
Definition merged (agent_id : option string) (d : dict) : dict :=
  if truthy agent_id then <["agent_id" := of_optional agent_id]> d else d.

(** The dictionary object [add] hands to the client. *)
Definition submitted_ref (h : list dict) (metadata : option nat) : nat :=
  match metadata with
  | Some l => if truthy_dict h metadata then l else length h
  | None => length h
  end.

(** The heap once [add] has evaluated [metadata or {}] and merged
    [agent_id] into the outcome. *)
Definition heap_after_merge (h : list dict) (agent_id : option string)
    (metadata : option nat) : list dict :=
  if truthy_dict h metadata
  then <[submitted_ref h metadata := merged agent_id (provided h metadata)]> h
  else h ++ [merged agent_id ∅].

(** The records written to the log between two worlds. *)
Definition logged (w w' : World) : list (LogLevel * string) :=
  drop (length (log w)) (log w').

(** The world once a call to the client was recorded and one record was
    logged. *)
Definition after_call (w : World) (c : Mem0Call)
    (record : LogLevel * string) : World :=
  mkWorld (mem0_calls w ++ [c]) (heap w) (log w ++ [record]).

(** The calls the four operations make. *)
Definition search_request (query : string) (user_id agent_id : option string)
    (limit : Z) : Mem0Call :=
  Mem0_search query agent_id limit {["user_id" := of_optional user_id]}.

Definition add_request (h : list dict) (messages : list (gmap string string))
    (user_id agent_id : option string) (metadata : option nat) : Mem0Call :=
  Mem0_add messages user_id (submitted_ref h metadata)
    (merged agent_id (provided h metadata)).

(** ** The smoke test: [test_memory.py] *)

(** The script prints and sleeps beside what the gateway does: its state
    is the process, the lines written to standard output and the sleeps
    taken. *)
Record Script : Type := mkScript {
  process : Process;
  stdout : list string;     (* one entry per [print] *)
  slept : list Z            (* seconds, one entry per [asyncio.sleep] *)
}.

Definition Sc (A : Type) : Type := Script -> outcome A * Script.

Definition sret {A} (a : A) : Sc A := fun s => (Return a, s).

Definition sraise {A} (e : Exception) : Sc A := fun s => (Raise e, s).

Definition sbind {A B} (m : Sc A) (k : A -> Sc B) : Sc B :=
  fun s =>
    match m s with
    | (Return a, s') => k a s'
    | (Raise e, s') => (Raise e, s')
    end.

Notation "'let*' x ':=' m 'in' k" := (sbind m (fun x => k))
  (at level 10, x name, m at level 100, k at level 200).
Notation "m '>>>' k" := (sbind m (fun _ => k))
  (at level 90, right associativity).

Definition print (line : string) : Sc unit :=
  fun s => (Return tt, mkScript (process s) (stdout s ++ [line]) (slept s)).

(** [await asyncio.sleep(seconds)] *)
Definition sleep (seconds : Z) : Sc unit :=
  fun s => (Return tt, mkScript (process s) (stdout s) (slept s ++ [seconds])).

(** A computation on the world, run by the script: an awaited operation
    of the gateway, or the evaluation of a dictionary display. *)
Definition await {A} (m : Py A) : Sc A :=
  fun s =>
    let '(r, w') := m (world (process s)) in
    (r, mkScript (mkProcess w' (objects (process s))
                            (_memory_client (process s)))
                 (stdout s) (slept s)).

(** A call of the accessor by the script. *)
Definition in_process {A} (m : Process -> outcome A * Process) : Sc A :=
  fun s =>
    let '(r, p') := m (process s) in
    (r, mkScript p' (stdout s) (slept s)).

(** The attributes of the object a variable refers to.  The accessor
    returns an [Optional]: on [None] an attribute access raises.  A
    reference to no object does not arise in a process started by
    [imported]; it is given the same error. *)
Definition attributes (name : string) (ref : option nat)
    : Sc MemoryClient.t :=
  fun s =>
    match ref with
    | Some r =>
        match objects (process s) !! r with
        | Some self => (Return self, s)
        | None =>
            (Raise (AttributeError
                      ("'NoneType' object has no attribute '" +:+ name +:+ "'")),
             s)
        end
    | None =>
        (Raise (AttributeError
                  ("'NoneType' object has no attribute '" +:+ name +:+ "'")),
         s)
    end.

Definition newline : string := String (Ascii.ascii_of_nat 10) "".

(** [s * n] on a string *)
Fixpoint str_mul (s : string) (n : nat) : string :=
  match n with
  | O => ""
  | S n' => s +:+ str_mul s n'
  end.

(** [str(b)] on a [bool] *)
Definition str_bool (b : bool) : string := if b then "True" else "False".

(** Truth value of a Python value: [None], [False], zero and the empty
    string, list and mapping are false. *)
Definition truthy_value (v : PyValue) : bool :=
  match v with
  | VNone => false
  | VBool b => b
  | VInt z => negb (Z.eqb z 0)
  | VStr s => negb (String.eqb s "")
  | VList l => match l with [] => false | _ => true end
  | VDict d => negb (bool_decide (d = ∅))
  | VObj _ => true
  end.

(** The characters of a string, each a string of length one. *)
Fixpoint characters (s : string) : list PyValue :=
  match s with
  | EmptyString => []
  | String a s' => VStr (String a "") :: characters s'
  end.

(** The elements a [for] loop takes from a value: those of a list, the
    characters of a string, the keys of a mapping (here in the order of
    [map_to_list], Python takes them in insertion order); other values
    are not iterable. *)
Definition iterate (v : PyValue) : outcome (list PyValue) :=
  match v with
  | VList l => Return l
  | VStr s => Return (characters s)
  | VDict d => Return (VStr <$> (map_to_list d).*1)
  | _ => Raise (TypeError ("'" +:+ type_name v +:+ "' object is not iterable"))
  end.

(** [enumerate(l, start)] *)
Fixpoint enumerate {A} (l : list A) (start : nat) : list (nat * A) :=
  match l with
  | [] => []
  | x :: l' => (start, x) :: enumerate l' (S start)
  end.

(** [for x in l: body x] *)
Fixpoint for_each {A} (l : list A) (body : A -> Sc unit) : Sc unit :=
  match l with
  | [] => sret tt
  | x :: l' => body x >>> for_each l' body
  end.

(** [memory.get('memory', fallback)]: the method of a mapping; the other
    values of [PyValue] have no attribute [get]. *)
Definition get_memory (memory fallback : PyValue) : outcome PyValue :=
  match memory with
  | VDict d => Return (default fallback (d !! "memory"))
  | _ => Raise (AttributeError
                  ("'" +:+ type_name memory
                   +:+ "' object has no attribute 'get'"))
  end.

Definition lift_s {A} (o : outcome A) : Sc A := fun s => (o, s).

Definition sample_conversation : list (gmap string string) :=
  [ {["role" := "user";
      "content" := "Hi, my name is Alice and I love Python programming"]};
    {["role" := "assistant";
      "content" := "Hello Alice! It's great to meet a fellow Python enthusiast. What kind of Python projects do you enjoy working on?"]};
    {["role" := "user";
      "content" := "I mainly work on web scraping and data analysis projects"]};
    {["role" := "assistant";
      "content" := "Excellent! Web scraping and data analysis are powerful applications of Python. Libraries like BeautifulSoup, Scrapy, and Pandas are very useful for those tasks."]} ].

Definition search_queries : list string :=
  [ "What's my name?";
    "What programming language do I like?";
    "What projects do I work on?";
    "Tell me about data science" ].

Definition test_user_id : string := "test-user-12345".
Definition test_agent_id : string := "test-agent-67890".

(** [test_memory_client()].  [str] is Python's [str()] on the values
    printed. *)
Definition test_memory_client (env : Env) (str : PyValue -> string)
    : Sc unit :=
  print (str_mul "=" 60) >>>
  print "Testing Memory Client" >>>
  print (str_mul "=" 60) >>>
  let* memory_client := in_process (get_memory_client env) in
  let* self := attributes "enabled" memory_client in
  if negb (MemoryClient.enabled self) then
    print (newline +:+ "❌ Memory client is NOT enabled") >>>
    print "Reasons:" >>>
    print ("  - mem0 library installed: "
           +:+ str_bool (MemoryClient.enabled self)) >>>
    print ("  - API key configured: "
           +:+ (if truthy (MemoryClient.api_key self) then "Yes" else "No")) >>>
    print (newline +:+ "To enable memory:") >>>
    print "  1. Install mem0: pip install mem0" >>>
    print "  2. Set MEMO_API_KEY in your .env file" >>>
    sret tt
  else
    print (newline +:+ "✅ Memory client is enabled") >>>
    print (newline +:+ str_mul "-" 60) >>>
    print "Test 1: Adding a sample conversation to memory" >>>
    print (str_mul "-" 60) >>>
    let* metadata :=
      await (new_dict {["test" := VBool true;
                        "timestamp" := VStr "2024-01-01"]}) in
    let* success :=
      await (MemoryClient.add self sample_conversation (Some test_user_id)
               (Some test_agent_id) (Some metadata)) in
    if success then
      print "✅ Successfully added conversation to memory" >>>
      print (newline +:+ "Waiting 3 seconds for indexing...") >>>
      sleep 3 >>>
      print (newline +:+ str_mul "-" 60) >>>
      print "Test 2: Searching for relevant memories" >>>
      print (str_mul "-" 60) >>>
      for_each search_queries
        (fun query =>
           print (newline +:+ "🔍 Query: '" +:+ query +:+ "'") >>>
           let* memories :=
             await (MemoryClient.search self query (Some test_user_id)
                      (Some test_agent_id) 3) in
           if truthy_value memories then
             let* n := lift_s (len memories) in
             print ("   Found " +:+ pretty n +:+ " relevant memories:") >>>
             let* elements := lift_s (iterate memories) in
             for_each (enumerate elements 1)
               (fun '(i, memory) =>
                  let* memory_text := lift_s (get_memory memory memory) in
                  print ("   " +:+ pretty i +:+ ". " +:+ str memory_text))
           else
             print "   No memories found") >>>
      print (newline +:+ str_mul "-" 60) >>>
      print "Test 3: Retrieving all memories for user" >>>
      print (str_mul "-" 60) >>>
      let* all_memories :=
        await (MemoryClient.get_all self (Some test_user_id)
                 (Some test_agent_id) 10) in
      let* n := lift_s (len all_memories) in
      print (newline +:+ "📝 Total memories for user: " +:+ pretty n) >>>
      (if truthy_value all_memories then
         print (newline +:+ "All memories:") >>>
         let* elements := lift_s (iterate all_memories) in
         for_each (enumerate elements 1)
           (fun '(i, memory) =>
              let* memory_text :=
                lift_s (get_memory memory (VStr (str memory))) in
              print ("  " +:+ pretty i +:+ ". " +:+ str memory_text))
       else sret tt) >>>
      print (newline +:+ str_mul "-" 60) >>>
      print "Test 4: Searching with different user (should be empty)" >>>
      print (str_mul "-" 60) >>>
      let* other_user_memories :=
        await (MemoryClient.search self "What's my name?"
                 (Some "different-user-99999") None 5) in
      let* n := lift_s (len other_user_memories) in
      print (newline +:+ "🔍 Memories for different user: " +:+ pretty n) >>>
      (if truthy_value other_user_memories then
         print "   (Unexpected - should be empty for different user)"
       else
         print "   ✅ Correctly returned no memories for different user") >>>
      print (newline +:+ str_mul "=" 60) >>>
      print "Memory Client Testing Complete!" >>>
      print (str_mul "=" 60)
    else
      print "❌ Failed to add conversation to memory" >>>
      sret tt.

(** How the script ends: it returns, or [sys.exit(code)] ends the
    process. *)
Inductive Ending : Type :=
  | Returns
  | Exits (code : Z).

(** [main()].  The handler for [KeyboardInterrupt] is not modelled: that
    signal is no instance of [Exception]. *)
Definition main (env : Env) (str : PyValue -> string) : Script -> Ending * Script :=
  fun s =>
    match test_memory_client env str s with
    | (Return _, s') => (Returns, s')
    | (Raise e, s') =>
        match (await (logger ERROR ("Test failed with error: " +:+ exc_msg e))
               >>> print (newline +:+ "❌ Test failed: " +:+ exc_msg e)) s' with
        | (_, s'') => (Exits 1, s'')
        end
    end.

(** *** Vocabulary for the script *)

(** From [s] to [s'] the calls [cs] were made and the sleeps [zs] taken. *)
Definition extends (s s' : Script) (cs : list Mem0Call) (zs : list Z) : Prop :=
  mem0_calls (world (process s')) = mem0_calls (world (process s)) ++ cs ∧
  slept s' = slept s ++ zs.

(** From every state, [m] returns a value in [Q] after the calls [cs] and
    the sleeps [zs]. *)
Definition performs {A} (m : Sc A) (Q : A -> Prop) (cs : list Mem0Call)
    (zs : list Z) : Prop :=
  ∀ s, ∃ a s', m s = (Return a, s') ∧ Q a ∧ extends s s' cs zs.

(** A list of mappings: the shape of memories the script can print. *)
Definition records (v : PyValue) : Prop :=
  ∃ l, v = VList l ∧ Forall (λ m, is_dict m = true) l.

(** A client that answers as the script expects: a mapping with records
    under ["results"] to [search], records to [get_all], and some value to
    [add]. *)
Definition answers_records (cl : Mem0Client) : Prop :=
  (∀ past query agent_id top_k filters,
     ∃ d r, respond cl past (Mem0_search query agent_id top_k filters)
              = Return (VDict d) ∧
            d !! "results" = Some r ∧ records r) ∧
  (∀ past user_id limit,
     ∃ r, respond cl past (Mem0_get_all user_id limit) = Return r ∧
          records r) ∧
  (∀ past messages user_id metadata now,
     ∃ v, respond cl past (Mem0_add messages user_id metadata now)
            = Return v).

(** The metadata the script passes to [add], after the merge. *)
Definition test_metadata : dict :=
  <["agent_id" := VStr test_agent_id]>
    {["test" := VBool true; "timestamp" := VStr "2024-01-01"]}.

(** The calls of a complete run of the script, [l] being the identity of
    its metadata dictionary. *)
Definition test_calls (l : nat) : list Mem0Call :=
  Mem0_add sample_conversation (Some test_user_id) l test_metadata
  :: map (λ query, search_request query (Some test_user_id)
                     (Some test_agent_id) 3) search_queries
  ++ [Mem0_get_all (Some test_user_id) 10;
      search_request "What's my name?" (Some "different-user-99999") None 5].

(** The run [x] of a script ended with [r], in a state with [P]. *)
Definition ends_with (x : outcome unit * Script) (r : outcome unit)
    (P : Script -> Prop) : Prop :=
  ∃ s', x = (r, s') ∧ P s'.

(** ** Exceptions the handlers do not catch *)

(** [except Exception] catches the instances of [Exception] and nothing
    else: [KeyboardInterrupt], [SystemExit] and [GeneratorExit] derive
    from [BaseException] only and pass through such a handler.  The
    module below tells the two kinds apart and gives the four operations
    again, from the source, for a client that may raise either kind. *)
Module Interruptible.

(** What a [raise] can carry: an instance of [Exception], or one of the
    built-in exceptions outside that class. *)
Inductive BaseException : Type :=
  | IsException (e : Exception)
  | KeyboardInterrupt
  | SystemExit
  | GeneratorExit.

Inductive result (A : Type) : Type :=
  | Returned (a : A)
  | Raised (b : BaseException).

Arguments Returned {A} a.
Arguments Raised {A} b.

(** An outcome whose exception is an instance of [Exception]. *)
Definition of_outcome {A} (o : outcome A) : result A :=
  match o with
  | Return a => Returned a
  | Raise e => Raised (IsException e)
  end.

(** The remote client object, now free to raise anything. *)
Record Client : Type := mkClient {
  answer : list Mem0Call -> Mem0Call -> result PyValue
}.

(** A client that returns or raises instances of [Exception]. *)
Definition of_client (cl : Mem0Client) : Client :=
  mkClient (fun past c => of_outcome (respond cl past c)).

Record t : Type := mk {
  api_key : option string;
  enabled : bool;
  client : option Client
}.

Definition of_gateway (self : MemoryClient.t) : t :=
  mk (MemoryClient.api_key self) (MemoryClient.enabled self)
     (of_client <$> MemoryClient.client self).

Definition Run (A : Type) : Type := World -> result A * World.

Definition ret {A} (a : A) : Run A := fun w => (Returned a, w).

Definition bind {A B} (m : Run A) (k : A -> Run B) : Run B :=
  fun w =>
    match m w with
    | (Returned a, w') => k a w'
    | (Raised b, w') => (Raised b, w')
    end.

(** [try: body / except Exception as e: handler e].  An exception that
    is no instance of [Exception] is not handled: it leaves the [try]
    statement as it came. *)
Definition try_except {A} (body : Run A) (handler : Exception -> Run A)
    : Run A :=
  fun w =>
    match body w with
    | (Returned a, w') => (Returned a, w')
    | (Raised (IsException e), w') => handler e w'
    | (Raised b, w') => (Raised b, w')
    end.

(** The steps that raise instances of [Exception] only: [len], the
    logger, the dictionary operations. *)
Definition run {A} (m : Py A) : Run A :=
  fun w => let '(o, w') := m w in (of_outcome o, w').

Declare Scope run_scope.
Notation "'let!' x ':=' m 'in' k" := (bind m (fun x => k))
  (at level 10, x name, m at level 100, k at level 200) : run_scope.
Notation "m '>>' k" := (bind m (fun _ => k))
  (at level 90, right associativity) : run_scope.
Local Open Scope run_scope.

(** [self.client.<name>(...)] *)
Definition call_client (client : option Client) (name : string)
    (c : Mem0Call) : Run PyValue :=
  match client with
  | Some cl =>
      fun w => (answer cl (mem0_calls w) c,
                mkWorld (mem0_calls w ++ [c]) (heap w) (log w))
  | None =>
      run (raise (AttributeError
                    ("'NoneType' object has no attribute '" +:+ name +:+ "'")))
  end.

Definition search (self : t) (query : string)
    (user_id agent_id : option string) (limit : Z) : Run PyValue :=
  if negb (enabled self) then ret (VList [])
  else
    try_except
      (let filters : dict := ∅ in
       let filters :=
         if truthy user_id
         then <["user_id" := of_optional user_id]> filters else filters in
       let filters :=
         if truthy agent_id
         then <["agent_id" := of_optional agent_id]> filters else filters in
       let! result :=
         call_client (client self) "search"
           (Mem0_search query agent_id limit
                        {["user_id" := of_optional user_id]}) in
       let memories :=
         match result with
         | VDict d => default (VList []) (d !! "results")
         | _ => VList []
         end in
       let! n := run (lift (len memories)) in
       run (logger DEBUG ("Found " +:+ pretty n
                          +:+ " relevant memories for query: "
                          +:+ String.substring 0 50 query +:+ "...")) >>
       ret memories)
      (fun e =>
         run (logger ERROR ("Error searching memories: " +:+ exc_msg e)) >>
         ret (VList [])).

Definition add (self : t) (messages : list (gmap string string))
    (user_id agent_id : option string) (metadata : option nat) : Run bool :=
  if negb (enabled self) then ret false
  else
    try_except
      (let! add_metadata := run (or_new_dict metadata) in
       (if truthy agent_id
        then run (setitem add_metadata "agent_id" (of_optional agent_id))
        else ret tt) >>
       let! now := run (read_dict add_metadata) in
       call_client (client self) "add"
         (Mem0_add messages user_id add_metadata now) >>
       run (logger DEBUG ("Added memories from " +:+ pretty (length messages)
                          +:+ " messages")) >>
       ret true)
      (fun e =>
         run (logger ERROR ("Error adding memories: " +:+ exc_msg e)) >>
         ret false).

Definition get_all (self : t) (user_id agent_id : option string)
    (limit : Z) : Run PyValue :=
  if negb (enabled self) then ret (VList [])
  else
    try_except
      (let filters : dict := ∅ in
       let filters :=
         if truthy agent_id
         then <["agent_id" := of_optional agent_id]> filters else filters in
       let! result :=
         call_client (client self) "get_all" (Mem0_get_all user_id limit) in
       let memories := if is_list result then result else VList [] in
       let! n := run (lift (len memories)) in
       run (logger DEBUG ("Retrieved " +:+ pretty n +:+ " total memories")) >>
       ret memories)
      (fun e =>
         run (logger ERROR ("Error getting all memories: " +:+ exc_msg e)) >>
         ret (VList [])).

Definition delete (self : t) (memory_id : string) : Run bool :=
  if negb (enabled self) then ret false
  else
    try_except
      (call_client (client self) "delete" (Mem0_delete memory_id) >>
       run (logger DEBUG ("Deleted memory: " +:+ memory_id)) >>
       ret true)
      (fun e =>
         run (logger ERROR ("Error deleting memory: " +:+ exc_msg e)) >>
         ret false).

End Interruptible.



(** The client returns or raises instances of [Exception], in every
    call. *)
Definition raises_only_Exception (cl : Interruptible.Client) : Prop :=
  ∀ past c, ∃ o, Interruptible.answer cl past c = Interruptible.of_outcome o.


(** ** Concrete gateways and clients used in the examples *)

Module Examples.

Definition empty_world : World := mkWorld [] [] [].

(** A transport stub that always fails. *)
Definition failing_client : Mem0Client :=
  mkMem0Client
    (fun _ _ => Raise (mkException "ConnectionError" "connection refused")).

(** A client with one stored memory. *)
Definition alice_client : Mem0Client :=
  mkMem0Client
    (fun _ c =>
       match c with
       | Mem0_search _ _ _ _ =>
           Return (VDict {["results" :=
                             VList [VDict {["memory" := VStr "Name is Alice"]}]]})
       | Mem0_get_all _ _ =>
           Return (VList [VDict {["memory" := VStr "Name is Alice"]}])
       | _ => Return VNone
       end).

Definition gateway (cl : Mem0Client) : MemoryClient.t :=
  MemoryClient.mk (Some "m0-key") true (Some cl).

Definition disabled_gateway : MemoryClient.t :=
  MemoryClient.mk None false None.

Definition message (role content : string) : gmap string string :=
  {["role" := role; "content" := content]}.

Definition env_ok : Env :=
  mkEnv true (Some "m0-key") (fun _ _ => Return alice_client).

End Examples.

(** ** Proof machinery *)

Ltac py_unfold :=
  unfold MemoryClient.search, MemoryClient.add, MemoryClient.get_all,
    MemoryClient.delete, try_except, bind, ret, raise, lift, logger,
    call_client, mem0, or_new_dict, new_dict, setitem, read_dict in *.

Lemma calls_made_app (w w' : World) (cs : list Mem0Call) :
  mem0_calls w' = mem0_calls w ++ cs → calls_made w w' = cs.
Proof.
  intros E. unfold calls_made. rewrite E. by rewrite drop_app_length.
Qed.

(** [len] succeeds on the value a list check lets through. *)
Lemma len_list_or_empty (v : PyValue) :
  ∃ n : nat, len (if is_list v then v else VList []) = Return n.
Proof. destruct v; simpl; eauto. Qed.

(** ** The disabled gateway *)

(** C1.  A gateway whose [enabled] flag is false answers each of the four
    operations with its sentinel ([[]] for [search] and [get_all], [False]
    for [add] and [delete]) and leaves the world as it was: no call into
    mem0 is recorded, so the client object is never invoked. *)
Theorem disabled_gateway_is_inert (self : MemoryClient.t) (w : World)
    (query memory_id : string) (user_id agent_id : option string)
    (limit : Z) (messages : list (gmap string string))
    (metadata : option nat) :
  MemoryClient.enabled self = false →
  MemoryClient.search self query user_id agent_id limit w
    = (Return (VList []), w) ∧
  MemoryClient.get_all self user_id agent_id limit w
    = (Return (VList []), w) ∧
  MemoryClient.add self messages user_id agent_id metadata w
    = (Return false, w) ∧
  MemoryClient.delete self memory_id w = (Return false, w).
Proof.
  intros Hoff. py_unfold. by rewrite Hoff.
Qed.

Lemma disabled_gateway_is_inert_witness :
  MemoryClient.search Examples.disabled_gateway "what is my name"
    (Some "u1") None 5 Examples.empty_world
    = (Return (VList []), Examples.empty_world) ∧
  MemoryClient.add Examples.disabled_gateway
    [Examples.message "user" "my name is Alice"] (Some "u1") None None
    Examples.empty_world
    = (Return false, Examples.empty_world).
Proof.
  destruct (disabled_gateway_is_inert Examples.disabled_gateway
              Examples.empty_world "what is my name" "" (Some "u1") None 5
              [Examples.message "user" "my name is Alice"] None eq_refl)
    as (Hs & _ & Ha & _).
  split; [exact Hs | exact Ha].
Defined.

(** ** What one operation does, case by case *)

Ltac py_finish :=
  eexists _, _; split; [reflexivity | simpl; repeat split; reflexivity].

Lemma search_cases (self : MemoryClient.t) (query : string)
    (user_id agent_id : option string) (limit : Z) (w : World) :
  let c := Mem0_search query agent_id limit
             {["user_id" := of_optional user_id]} in
  ∃ v w',
    MemoryClient.search self query user_id agent_id limit w = (Return v, w') ∧
    heap w' = heap w ∧
    match MemoryClient.enabled self, MemoryClient.client self with
    | false, _ => v = VList [] ∧ w' = w
    | true, None => v = VList [] ∧ mem0_calls w' = mem0_calls w
    | true, Some cl =>
        v = search_value (respond cl (mem0_calls w) c) ∧
        mem0_calls w' = mem0_calls w ++ [c]
    end.
Proof.
  intros c. py_unfold.
  destruct (MemoryClient.enabled self); simpl; [|py_finish].
  destruct (MemoryClient.client self) as [cl|]; simpl; [|py_finish].
  fold c. destruct (respond cl (mem0_calls w) c) as [r|e]; simpl; [|py_finish].
  fold (extract_results r).
  destruct (len (extract_results r)); simpl; py_finish.
Qed.

Lemma get_all_cases (self : MemoryClient.t)
    (user_id agent_id : option string) (limit : Z) (w : World) :
  let c := Mem0_get_all user_id limit in
  ∃ v w',
    MemoryClient.get_all self user_id agent_id limit w = (Return v, w') ∧
    heap w' = heap w ∧
    match MemoryClient.enabled self, MemoryClient.client self with
    | false, _ => v = VList [] ∧ w' = w
    | true, None => v = VList [] ∧ mem0_calls w' = mem0_calls w
    | true, Some cl =>
        v = get_all_value (respond cl (mem0_calls w) c) ∧
        mem0_calls w' = mem0_calls w ++ [c]
    end.
Proof.
  intros c. py_unfold.
  destruct (MemoryClient.enabled self); simpl; [|py_finish].
  destruct (MemoryClient.client self) as [cl|]; simpl; [|py_finish].
  fold c. destruct (respond cl (mem0_calls w) c) as [r|e]; simpl; [|py_finish].
  destruct (len_list_or_empty r) as [n ->]; simpl; py_finish.
Qed.

Lemma delete_cases (self : MemoryClient.t) (memory_id : string) (w : World) :
  let c := Mem0_delete memory_id in
  ∃ b w',
    MemoryClient.delete self memory_id w = (Return b, w') ∧
    heap w' = heap w ∧
    match MemoryClient.enabled self, MemoryClient.client self with
    | false, _ => b = false ∧ w' = w
    | true, None => b = false ∧ mem0_calls w' = mem0_calls w
    | true, Some cl =>
        b = succeeded (respond cl (mem0_calls w) c) ∧
        mem0_calls w' = mem0_calls w ++ [c]
    end.
Proof.
  intros c. py_unfold.
  destruct (MemoryClient.enabled self); simpl; [|py_finish].
  destruct (MemoryClient.client self) as [cl|]; simpl; [|py_finish].
  fold c. destruct (respond cl (mem0_calls w) c) as [r|e]; simpl; py_finish.
Qed.

Lemma lookup_new_dict (h : list dict) (d : dict) :
  (h ++ [d]) !! length h = Some d.
Proof. rewrite lookup_app_r by done. by rewrite Nat.sub_diag. Qed.

Lemma insert_new_dict (h : list dict) (d d' : dict) :
  <[length h := d']> (h ++ [d]) = h ++ [d'].
Proof. rewrite insert_app_r_alt by done. by rewrite Nat.sub_diag. Qed.

Ltac py_heap :=
  repeat (progress (rewrite ?lookup_new_dict, ?insert_new_dict; simpl)).

Lemma provided_falsy (h : list dict) (metadata : option nat) :
  truthy_dict h metadata = false → provided h metadata = ∅.
Proof.
  destruct metadata as [l|]; simpl; [|done].
  unfold items. destruct (h !! l) as [d|]; simpl; [|done].
  intros E. apply negb_false_iff, bool_decide_eq_true in E. done.
Qed.

Lemma add_cases (self : MemoryClient.t) (messages : list (gmap string string))
    (user_id agent_id : option string) (metadata : option nat) (w : World) :
  let c := Mem0_add messages user_id (submitted_ref (heap w) metadata)
             (merged agent_id (provided (heap w) metadata)) in
  ∃ b w',
    MemoryClient.add self messages user_id agent_id metadata w
      = (Return b, w') ∧
    match MemoryClient.enabled self, MemoryClient.client self with
    | false, _ => b = false ∧ w' = w
    | true, None =>
        b = false ∧ mem0_calls w' = mem0_calls w ∧
        heap w' = heap_after_merge (heap w) agent_id metadata
    | true, Some cl =>
        b = succeeded (respond cl (mem0_calls w) c) ∧
        mem0_calls w' = mem0_calls w ++ [c] ∧
        heap w' = heap_after_merge (heap w) agent_id metadata
    end.
Proof.
  intros c. subst c. py_unfold.
  destruct (MemoryClient.enabled self); simpl; [|py_finish].
  unfold heap_after_merge, submitted_ref, merged.
  destruct metadata as [l|];
    [destruct (truthy_dict (heap w) (Some l)) eqn:T|]; simpl.
  - unfold truthy_dict in T. unfold items.
    destruct (heap w !! l) as [d|] eqn:Hl; [|done]. simpl.
    assert (l < length (heap w))%nat as Hlt by (by eapply lookup_lt_Some).
    destruct (truthy agent_id); simpl.
    + rewrite Hl. simpl. unfold items.
      rewrite list_lookup_insert_eq by done. simpl.
      destruct (MemoryClient.client self) as [cl|]; simpl; [|py_finish].
      destruct (respond cl _ _); simpl; py_finish.
    + unfold items. rewrite Hl. simpl. rewrite list_insert_id by done.
      destruct (MemoryClient.client self) as [cl|]; simpl; [|py_finish].
      destruct (respond cl _ _); simpl; py_finish.
  - pose proof (provided_falsy _ _ T) as P. simpl in P. rewrite !P.
    destruct (truthy agent_id); simpl; unfold items; py_heap;
      (destruct (MemoryClient.client self) as [cl|]; simpl; [|py_finish]);
      destruct (respond cl _ _); simpl; py_finish.
  - destruct (truthy agent_id); simpl; unfold items; py_heap;
      (destruct (MemoryClient.client self) as [cl|]; simpl; [|py_finish]);
      destruct (respond cl _ _); simpl; py_finish.
Qed.

(** ** Errors stay inside the gateway *)

Lemma transport_error_inv (self : MemoryClient.t) (cl : Mem0Client)
    (w w' : World) (c : Mem0Call) :
  MemoryClient.client self = Some cl →
  mem0_calls w' = mem0_calls w ++ [c] →
  transport_error self w w' →
  ∃ e, respond cl (mem0_calls w) c = Raise e.
Proof.
  intros Hcl E (cl' & c' & e & Hcl' & E' & R).
  rewrite Hcl in Hcl'. injection Hcl' as <-.
  rewrite E in E'. apply app_inv_head in E'. injection E' as <-.
  eauto.
Qed.

Lemma at_most_once_one (w w' : World) (c : Mem0Call) :
  mem0_calls w' = mem0_calls w ++ [c] → at_most_once w w'.
Proof. intros E. exists [c]. by split. Qed.

Lemma at_most_once_none (w w' : World) :
  mem0_calls w' = mem0_calls w → at_most_once w w'.
Proof. intros E. exists []. rewrite app_nil_r. split; [done | simpl; lia]. Qed.

(** Each operation returns, after at most one call to the client, and
    with its sentinel if that call raised. *)
Lemma search_returns (self : MemoryClient.t) (query : string)
    (user_id agent_id : option string) (limit : Z) (w : World) :
  ∃ v w',
    MemoryClient.search self query user_id agent_id limit w = (Return v, w') ∧
    at_most_once w w' ∧
    (transport_error self w w' → v = VList []).
Proof.
  destruct (search_cases self query user_id agent_id limit w)
    as (v & w' & Run & _ & H).
  exists v, w'. split; [done|].
  destruct (MemoryClient.enabled self);
    [destruct (MemoryClient.client self) as [cl|] eqn:Hcl|].
  - destruct H as [-> E]. split; [by eapply at_most_once_one|]. intros T.
    by destruct (transport_error_inv _ _ _ _ _ Hcl E T) as [e ->].
  - destruct H as [-> E]. split; [by apply at_most_once_none | done].
  - destruct H as [-> ->]. split; [by apply at_most_once_none | done].
Qed.

Lemma get_all_returns (self : MemoryClient.t)
    (user_id agent_id : option string) (limit : Z) (w : World) :
  ∃ v w',
    MemoryClient.get_all self user_id agent_id limit w = (Return v, w') ∧
    at_most_once w w' ∧
    (transport_error self w w' → v = VList []).
Proof.
  destruct (get_all_cases self user_id agent_id limit w)
    as (v & w' & Run & _ & H).
  exists v, w'. split; [done|].
  destruct (MemoryClient.enabled self);
    [destruct (MemoryClient.client self) as [cl|] eqn:Hcl|].
  - destruct H as [-> E]. split; [by eapply at_most_once_one|]. intros T.
    by destruct (transport_error_inv _ _ _ _ _ Hcl E T) as [e ->].
  - destruct H as [-> E]. split; [by apply at_most_once_none | done].
  - destruct H as [-> ->]. split; [by apply at_most_once_none | done].
Qed.

Lemma add_returns (self : MemoryClient.t)
    (messages : list (gmap string string)) (user_id agent_id : option string)
    (metadata : option nat) (w : World) :
  ∃ b w',
    MemoryClient.add self messages user_id agent_id metadata w
      = (Return b, w') ∧
    at_most_once w w' ∧
    (transport_error self w w' → b = false).
Proof.
  destruct (add_cases self messages user_id agent_id metadata w)
    as (b & w' & Run & H).
  exists b, w'. split; [done|].
  destruct (MemoryClient.enabled self);
    [destruct (MemoryClient.client self) as [cl|] eqn:Hcl|].
  - destruct H as (-> & E & _). split; [by eapply at_most_once_one|].
    intros T. by destruct (transport_error_inv _ _ _ _ _ Hcl E T) as [e ->].
  - destruct H as (-> & E & _). split; [by apply at_most_once_none | done].
  - destruct H as [-> ->]. split; [by apply at_most_once_none | done].
Qed.

Lemma delete_returns (self : MemoryClient.t) (memory_id : string)
    (w : World) :
  ∃ b w',
    MemoryClient.delete self memory_id w = (Return b, w') ∧
    at_most_once w w' ∧
    (transport_error self w w' → b = false).
Proof.
  destruct (delete_cases self memory_id w) as (b & w' & Run & _ & H).
  exists b, w'. split; [done|].
  destruct (MemoryClient.enabled self);
    [destruct (MemoryClient.client self) as [cl|] eqn:Hcl|].
  - destruct H as [-> E]. split; [by eapply at_most_once_one|]. intros T.
    by destruct (transport_error_inv _ _ _ _ _ Hcl E T) as [e ->].
  - destruct H as [-> E]. split; [by apply at_most_once_none | done].
  - destruct H as [-> ->]. split; [by apply at_most_once_none | done].
Qed.

(** In this model, where what a client raises is an instance of
    [Exception]: each of the four operations returns, and when the client
    was called and raised, [search] and [get_all] return [[]] and [add]
    and [delete] return [False]. *)
Theorem gateway_never_raises (self : MemoryClient.t) (w : World)
    (query memory_id : string) (user_id agent_id : option string)
    (limit : Z) (messages : list (gmap string string))
    (metadata : option nat) :
  (∃ v w', MemoryClient.search self query user_id agent_id limit w
             = (Return v, w') ∧
           (transport_error self w w' → v = VList [])) ∧
  (∃ v w', MemoryClient.get_all self user_id agent_id limit w
             = (Return v, w') ∧
           (transport_error self w w' → v = VList [])) ∧
  (∃ b w', MemoryClient.add self messages user_id agent_id metadata w
             = (Return b, w') ∧
           (transport_error self w w' → b = false)) ∧
  (∃ b w', MemoryClient.delete self memory_id w = (Return b, w') ∧
           (transport_error self w w' → b = false)).
Proof.
  split_and!.
  - destruct (search_returns self query user_id agent_id limit w)
      as (v & w' & Run & _ & T). eauto.
  - destruct (get_all_returns self user_id agent_id limit w)
      as (v & w' & Run & _ & T). eauto.
  - destruct (add_returns self messages user_id agent_id metadata w)
      as (b & w' & Run & _ & T). eauto.
  - destruct (delete_returns self memory_id w)
      as (b & w' & Run & _ & T). eauto.
Qed.

Lemma gateway_never_raises_witness :
  fst (MemoryClient.search (Examples.gateway Examples.failing_client)
         "what is my name" (Some "u1") None 5 Examples.empty_world)
    = Return (VList []) ∧
  fst (MemoryClient.delete (Examples.gateway Examples.failing_client)
         "mem-1" Examples.empty_world)
    = Return false.
Proof.
  destruct (gateway_never_raises (Examples.gateway Examples.failing_client)
              Examples.empty_world "what is my name" "mem-1" (Some "u1") None
              5 [] None)
    as ((v & w1 & Run1 & H1) & _ & _ & (b & w2 & Run2 & H2)).
  split.
  - rewrite Run1. simpl. f_equal. apply H1.
    apply (f_equal snd) in Run1. simpl in Run1. subst w1.
    exists Examples.failing_client. eexists _, _.
    repeat split; reflexivity.
  - rewrite Run2. simpl. f_equal. apply H2.
    apply (f_equal snd) in Run2. simpl in Run2. subst w2.
    exists Examples.failing_client. eexists _, _.
    repeat split; reflexivity.
Defined.

(** ** Exceptions outside [Exception] *)

Ltac run_unfold :=
  unfold Interruptible.search, Interruptible.add, Interruptible.get_all,
    Interruptible.delete, Interruptible.try_except, Interruptible.bind,
    Interruptible.ret, Interruptible.run, Interruptible.call_client,
    Interruptible.of_gateway, Interruptible.of_client,
    Interruptible.of_outcome in *.

(** For a client that returns or raises instances of [Exception], the
    operations of [Interruptible] are those of [MemoryClient]. *)
Lemma search_of_gateway (self : MemoryClient.t) (query : string)
    (user_id agent_id : option string) (limit : Z) (w : World) :
  Interruptible.search (Interruptible.of_gateway self) query user_id agent_id
    limit w
  = Interruptible.run
      (MemoryClient.search self query user_id agent_id limit) w.
Proof.
  run_unfold. py_unfold. simpl.
  destruct (MemoryClient.enabled self); simpl; [|done].
  destruct (MemoryClient.client self) as [cl|]; simpl; [|done].
  destruct (respond cl _ _) as [r|e]; simpl; [|done].
  by destruct (len _).
Qed.

Lemma get_all_of_gateway (self : MemoryClient.t)
    (user_id agent_id : option string) (limit : Z) (w : World) :
  Interruptible.get_all (Interruptible.of_gateway self) user_id agent_id
    limit w
  = Interruptible.run (MemoryClient.get_all self user_id agent_id limit) w.
Proof.
  run_unfold. py_unfold. simpl.
  destruct (MemoryClient.enabled self); simpl; [|done].
  destruct (MemoryClient.client self) as [cl|]; simpl; [|done].
  destruct (respond cl _ _) as [r|e]; simpl; [|done].
  by destruct (len _).
Qed.

Lemma delete_of_gateway (self : MemoryClient.t) (memory_id : string)
    (w : World) :
  Interruptible.delete (Interruptible.of_gateway self) memory_id w
  = Interruptible.run (MemoryClient.delete self memory_id) w.
Proof.
  run_unfold. py_unfold. simpl.
  destruct (MemoryClient.enabled self); simpl; [|done].
  destruct (MemoryClient.client self) as [cl|]; simpl; [|done].
  by destruct (respond cl _ _).
Qed.

Lemma add_of_gateway (self : MemoryClient.t)
    (messages : list (gmap string string)) (user_id agent_id : option string)
    (metadata : option nat) (w : World) :
  Interruptible.add (Interruptible.of_gateway self) messages user_id agent_id
    metadata w
  = Interruptible.run
      (MemoryClient.add self messages user_id agent_id metadata) w.
Proof.
  run_unfold. py_unfold. simpl.
  destruct (MemoryClient.enabled self); simpl; [|done].
  destruct metadata as [l|];
    [destruct (truthy_dict (heap w) (Some l))|];
    destruct (truthy agent_id); simpl;
    (destruct (MemoryClient.client self) as [cl|]; simpl; [|done]);
    by destruct (respond cl _ _).
Qed.






Lemma of_client_raises_only_Exception (cl : Mem0Client) :
  raises_only_Exception (Interruptible.of_client cl).
Proof. intros past c. by eexists. Qed.


(** ** What [search] and [get_all] pass to the client *)

Lemma search_call (self : MemoryClient.t) (cl : Mem0Client) (query : string)
    (user_id agent_id : option string) (limit : Z) (w : World) :
  MemoryClient.enabled self = true →
  MemoryClient.client self = Some cl →
  calls_made w
    (snd (MemoryClient.search self query user_id agent_id limit w))
    = [Mem0_search query agent_id limit {["user_id" := of_optional user_id]}].
Proof.
  intros Hen Hcl.
  destruct (search_cases self query user_id agent_id limit w)
    as (v & w' & Run & _ & H).
  rewrite Run, Hen, Hcl in *. destruct H as [_ E]. simpl.
  by apply calls_made_app.
Qed.

(** The filter of a [search] call has the one key [user_id], whatever the
    two identifiers are. *)
Lemma search_filter_keys (user_id : option string) (key : string) :
  is_Some (({["user_id" := of_optional user_id]} : dict) !! key)
  ↔ key = "user_id".
Proof.
  rewrite lookup_singleton_is_Some. split; congruence.
Qed.

(** C3.  The code at the input [search("what is my name", user_id="u1",
    agent_id="agent-1")] on an enabled gateway: the one call made passes
    [filters={"user_id": "u1"}], in which no key [agent_id] occurs although
    an agent identifier was provided; the identifier travels as the
    keyword argument [agent_id] instead.  Without a user identifier the
    filter is [{"user_id": None}]: the key is present although none was
    provided. *)
Theorem search_filter_lacks_agent :
  calls_made Examples.empty_world
    (snd (MemoryClient.search (Examples.gateway Examples.alice_client)
            "what is my name" (Some "u1") (Some "agent-1") 5
            Examples.empty_world))
    = [Mem0_search "what is my name" (Some "agent-1") 5
         {["user_id" := VStr "u1"]}] ∧
  ({["user_id" := VStr "u1"]} : dict) !! "agent_id" = None ∧
  calls_made Examples.empty_world
    (snd (MemoryClient.search (Examples.gateway Examples.alice_client)
            "what is my name" None (Some "agent-1") 5
            Examples.empty_world))
    = [Mem0_search "what is my name" (Some "agent-1") 5
         {["user_id" := VNone]}] ∧
  ({["user_id" := VNone]} : dict) !! "user_id" = Some VNone.
Proof.
  repeat split; try reflexivity; by rewrite search_call.
Qed.

Lemma get_all_call (self : MemoryClient.t) (cl : Mem0Client)
    (user_id agent_id : option string) (limit : Z) (w : World) :
  MemoryClient.enabled self = true →
  MemoryClient.client self = Some cl →
  calls_made w (snd (MemoryClient.get_all self user_id agent_id limit w))
    = [Mem0_get_all user_id limit].
Proof.
  intros Hen Hcl.
  destruct (get_all_cases self user_id agent_id limit w)
    as (v & w' & Run & _ & H).
  rewrite Run, Hen, Hcl in *. destruct H as [_ E]. simpl.
  by apply calls_made_app.
Qed.

(** C10.  [get_all] does not depend on its [agent_id] argument: for any
    two agent identifiers the value returned and the world left behind
    (the call made to the client included) are the same.  The mapping
    [filters] built from [agent_id] is never passed on: the call an
    enabled gateway makes is [get_all(user_id=user_id, limit=limit)]. *)
Theorem get_all_ignores_agent_id (self : MemoryClient.t)
    (user_id agent_id agent_id' : option string) (limit : Z) (w : World) :
  MemoryClient.get_all self user_id agent_id limit w
    = MemoryClient.get_all self user_id agent_id' limit w ∧
  (∀ cl, MemoryClient.enabled self = true →
         MemoryClient.client self = Some cl →
         calls_made w
           (snd (MemoryClient.get_all self user_id agent_id limit w))
           = [Mem0_get_all user_id limit]).
Proof.
  split.
  - py_unfold. destruct (MemoryClient.enabled self); reflexivity.
  - intros cl Hen Hcl. by eapply get_all_call.
Qed.

Lemma get_all_ignores_agent_id_witness :
  MemoryClient.get_all (Examples.gateway Examples.alice_client)
    (Some "u1") (Some "agent-1") 100 Examples.empty_world
    = MemoryClient.get_all (Examples.gateway Examples.alice_client)
        (Some "u1") (Some "agent-2") 100 Examples.empty_world ∧
  calls_made Examples.empty_world
    (snd (MemoryClient.get_all (Examples.gateway Examples.alice_client)
            (Some "u1") (Some "agent-1") 100 Examples.empty_world))
    = [Mem0_get_all (Some "u1") 100].
Proof.
  destruct (get_all_ignores_agent_id (Examples.gateway Examples.alice_client)
              (Some "u1") (Some "agent-1") (Some "agent-2") 100
              Examples.empty_world) as [Heq Hcall].
  split; [exact Heq | exact (Hcall Examples.alice_client eq_refl eq_refl)].
Defined.

(** ** The response envelope of [search] *)

(** C5.  On an enabled gateway whose client returned [v] to the search
    call: if [v] is a mapping with a sequence [r] (a value with a length)
    under ["results"], [search] returns [r]; if [v] is a mapping without
    that key, or no mapping at all, [search] returns [[]]. *)
Theorem search_extracts_results (self : MemoryClient.t) (cl : Mem0Client)
    (query : string) (user_id agent_id : option string) (limit : Z)
    (w : World) (v : PyValue) :
  MemoryClient.enabled self = true →
  MemoryClient.client self = Some cl →
  respond cl (mem0_calls w)
    (Mem0_search query agent_id limit {["user_id" := of_optional user_id]})
    = Return v →
  let out := fst (MemoryClient.search self query user_id agent_id limit w) in
  (∀ d r, v = VDict d → d !! "results" = Some r → sized r = true →
          out = Return r) ∧
  (∀ d, v = VDict d → d !! "results" = None → out = Return (VList [])) ∧
  (is_dict v = false → out = Return (VList [])).
Proof.
  intros Hen Hcl R out. subst out.
  destruct (search_cases self query user_id agent_id limit w)
    as (v' & w' & Run & _ & H).
  rewrite Run, Hen, Hcl, R in *. destruct H as [-> _]. simpl.
  repeat split.
  - intros d r -> Hr Hs. simpl. rewrite Hr. simpl.
    unfold sized in Hs. by destruct (len r).
  - intros d -> Hr. simpl. by rewrite Hr.
  - intros Hd. by destruct v.
Qed.

(** A value without a length under ["results"] makes [len] raise inside
    the [try] block: the handler answers [[]]. *)
Lemma search_results_without_len (self : MemoryClient.t) (cl : Mem0Client)
    (query : string) (user_id agent_id : option string) (limit : Z)
    (w : World) (d : dict) (r : PyValue) :
  MemoryClient.enabled self = true →
  MemoryClient.client self = Some cl →
  respond cl (mem0_calls w)
    (Mem0_search query agent_id limit {["user_id" := of_optional user_id]})
    = Return (VDict d) →
  d !! "results" = Some r → sized r = false →
  fst (MemoryClient.search self query user_id agent_id limit w)
    = Return (VList []).
Proof.
  intros Hen Hcl R Hr Hs.
  destruct (search_cases self query user_id agent_id limit w)
    as (v' & w' & Run & _ & H).
  rewrite Run, Hen, Hcl, R in *. destruct H as [-> _]. simpl.
  rewrite Hr. simpl. unfold sized in Hs. by destruct (len r).
Qed.

Lemma search_extracts_results_witness :
  fst (MemoryClient.search (Examples.gateway Examples.alice_client)
         "what is my name" (Some "u1") None 5 Examples.empty_world)
    = Return (VList [VDict {["memory" := VStr "Name is Alice"]}]).
Proof.
  destruct (search_extracts_results (Examples.gateway Examples.alice_client)
              Examples.alice_client "what is my name" (Some "u1") None 5
              Examples.empty_world
              (VDict {["results" :=
                         VList [VDict {["memory" := VStr "Name is Alice"]}]]})
              eq_refl eq_refl eq_refl)
    as (Hres & _ & _).
  exact (Hres _ _ eq_refl eq_refl eq_refl).
Defined.

(** ** The metadata of [add] *)

Lemma truthy_Some (s : string) : s ≠ "" → truthy (Some s) = true.
Proof.
  intros Hs. simpl. apply negb_true_iff, String.eqb_neq. done.
Qed.

(** C6.  On an enabled gateway, [add] with a non-empty agent identifier
    submits to the client the provided metadata (an empty mapping if none
    was provided) extended with the key ["agent_id"] bound to that
    identifier; without an agent identifier it submits the provided
    metadata (an empty mapping if none was provided) unchanged. *)
Theorem add_submits_merged_metadata (self : MemoryClient.t) (cl : Mem0Client)
    (messages : list (gmap string string)) (user_id agent_id : option string)
    (metadata : option nat) (w : World) :
  MemoryClient.enabled self = true →
  MemoryClient.client self = Some cl →
  let made :=
    calls_made w
      (snd (MemoryClient.add self messages user_id agent_id metadata w)) in
  (∀ s, agent_id = Some s → s ≠ "" →
        ∃ l, made = [Mem0_add messages user_id l
                       (<["agent_id" := VStr s]> (provided (heap w) metadata))]) ∧
  (agent_id = None →
        ∃ l, made = [Mem0_add messages user_id l (provided (heap w) metadata)]).
Proof.
  intros Hen Hcl made. subst made.
  destruct (add_cases self messages user_id agent_id metadata w)
    as (b & w' & Run & H).
  rewrite Run, Hen, Hcl in *. destruct H as (_ & E & _). simpl.
  rewrite (calls_made_app _ _ _ E). unfold merged. split.
  - intros s -> Hs. rewrite (truthy_Some s Hs). simpl. eauto.
  - intros ->. simpl. eauto.
Qed.

Lemma add_submits_merged_metadata_witness :
  calls_made (mkWorld [] [{["test" := VBool true]}] [])
    (snd (MemoryClient.add (Examples.gateway Examples.alice_client)
            [Examples.message "user" "my name is Alice"] (Some "u1")
            (Some "agent-1") (Some 0%nat)
            (mkWorld [] [{["test" := VBool true]}] [])))
    = [Mem0_add [Examples.message "user" "my name is Alice"] (Some "u1")
         0%nat
         (<["agent_id" := VStr "agent-1"]> {["test" := VBool true]})].
Proof.
  destruct (add_submits_merged_metadata
              (Examples.gateway Examples.alice_client) Examples.alice_client
              [Examples.message "user" "my name is Alice"] (Some "u1")
              (Some "agent-1") (Some 0%nat)
              (mkWorld [] [{["test" := VBool true]}] []) eq_refl eq_refl)
    as (Hmerge & _).
  destruct (Hmerge "agent-1" eq_refl ltac:(discriminate)) as [l El].
  rewrite El. vm_compute in El. injection El as <-. reflexivity.
Defined.

(** C9.  On an enabled gateway, [add] with a non-empty metadata mapping
    and a non-empty agent identifier updates the caller's mapping in
    place: after the call the very dictionary the caller passed holds
    ["agent_id"] bound to the identifier, no dictionary was created, and
    the object handed to the client is the caller's. *)
Theorem add_mutates_caller_metadata (self : MemoryClient.t)
    (messages : list (gmap string string)) (user_id : option string)
    (s : string) (l : nat) (d : dict) (w : World) :
  MemoryClient.enabled self = true →
  heap w !! l = Some d → d ≠ ∅ → s ≠ "" →
  let w' := snd (MemoryClient.add self messages user_id (Some s) (Some l) w) in
  heap w' !! l = Some (<["agent_id" := VStr s]> d) ∧
  items (heap w') l !! "agent_id" = Some (VStr s) ∧
  length (heap w') = length (heap w) ∧
  (∀ cl, MemoryClient.client self = Some cl →
         calls_made w w'
           = [Mem0_add messages user_id l (<["agent_id" := VStr s]> d)]).
Proof.
  intros Hen Hl Hd Hs w'. subst w'.
  destruct (add_cases self messages user_id (Some s) (Some l) w)
    as (b & w' & Run & H).
  rewrite Run, Hen in *. simpl.
  assert (truthy_dict (heap w) (Some l) = true) as T.
  { simpl. rewrite Hl. apply negb_true_iff, bool_decide_eq_false. done. }
  assert (l < length (heap w))%nat as Hlt by (by eapply lookup_lt_Some).
  assert (heap w' = <[l := <["agent_id" := VStr s]> d]> (heap w)) as Hh.
  { destruct (MemoryClient.client self);
      [destruct H as (_ & _ & ->) | destruct H as (_ & _ & ->)];
      unfold heap_after_merge, submitted_ref, merged, provided, items;
      rewrite T, (truthy_Some s Hs), Hl; done. }
  rewrite Hh. repeat split.
  - by rewrite list_lookup_insert_eq.
  - unfold items. rewrite list_lookup_insert_eq by done. simpl.
    by rewrite lookup_insert_eq.
  - by rewrite length_insert.
  - intros cl Hcl. rewrite Hcl in H. destruct H as (_ & E & _).
    rewrite (calls_made_app _ _ _ E).
    unfold submitted_ref, merged, provided, items.
    rewrite T, (truthy_Some s Hs), Hl. done.
Qed.

Lemma add_mutates_caller_metadata_witness :
  heap (snd (MemoryClient.add (Examples.gateway Examples.failing_client)
               [] (Some "u1") (Some "agent-1") (Some 0%nat)
               (mkWorld [] [{["test" := VBool true]}] []))) !! 0%nat
    = Some (<["agent_id" := VStr "agent-1"]> {["test" := VBool true]}).
Proof.
  refine (proj1 (add_mutates_caller_metadata
                   (Examples.gateway Examples.failing_client) [] (Some "u1")
                   "agent-1" 0%nat {["test" := VBool true]}
                   (mkWorld [] [{["test" := VBool true]}] [])
                   eq_refl eq_refl _ _)).
  - intros E. apply (f_equal (λ m : dict, m !! "test")) in E. discriminate E.
  - discriminate.
Defined.

(** ** No retries *)

(** C7.  One invocation of [search], [get_all], [add] or [delete] calls
    the client at most once; when that call raises, the operation
    returns its sentinel and the failed call is the only one made. *)
Theorem at_most_one_remote_call (self : MemoryClient.t) (w : World)
    (query memory_id : string) (user_id agent_id : option string)
    (limit : Z) (messages : list (gmap string string))
    (metadata : option nat) :
  let s := MemoryClient.search self query user_id agent_id limit w in
  let g := MemoryClient.get_all self user_id agent_id limit w in
  let a := MemoryClient.add self messages user_id agent_id metadata w in
  let d := MemoryClient.delete self memory_id w in
  (at_most_once w (snd s) ∧
   (transport_error self w (snd s) →
    fst s = Return (VList []) ∧ length (calls_made w (snd s)) = 1%nat)) ∧
  (at_most_once w (snd g) ∧
   (transport_error self w (snd g) →
    fst g = Return (VList []) ∧ length (calls_made w (snd g)) = 1%nat)) ∧
  (at_most_once w (snd a) ∧
   (transport_error self w (snd a) →
    fst a = Return false ∧ length (calls_made w (snd a)) = 1%nat)) ∧
  (at_most_once w (snd d) ∧
   (transport_error self w (snd d) →
    fst d = Return false ∧ length (calls_made w (snd d)) = 1%nat)).
Proof.
  intros s g a d.
  assert (∀ w', transport_error self w w' →
                length (calls_made w w') = 1%nat) as One.
  { intros w' (cl & c & e & _ & E & _). by rewrite (calls_made_app _ _ _ E). }
  split; [|split; [|split]].
  - subst s. destruct (search_returns self query user_id agent_id limit w)
      as (v & w' & -> & Once & T). simpl.
    split; [done|]. intros Err. by rewrite (T Err), (One _ Err).
  - subst g. destruct (get_all_returns self user_id agent_id limit w)
      as (v & w' & -> & Once & T). simpl.
    split; [done|]. intros Err. by rewrite (T Err), (One _ Err).
  - subst a. destruct (add_returns self messages user_id agent_id metadata w)
      as (b & w' & -> & Once & T). simpl.
    split; [done|]. intros Err. by rewrite (T Err), (One _ Err).
  - subst d. destruct (delete_returns self memory_id w)
      as (b & w' & -> & Once & T). simpl.
    split; [done|]. intros Err. by rewrite (T Err), (One _ Err).
Qed.

Lemma at_most_one_remote_call_witness :
  fst (MemoryClient.get_all (Examples.gateway Examples.failing_client)
         (Some "u1") None 100 Examples.empty_world)
    = Return (VList []) ∧
  length (calls_made Examples.empty_world
            (snd (MemoryClient.get_all
                    (Examples.gateway Examples.failing_client)
                    (Some "u1") None 100 Examples.empty_world)))
    = 1%nat.
Proof.
  destruct (at_most_one_remote_call
              (Examples.gateway Examples.failing_client) Examples.empty_world
              "" "" (Some "u1") None 100 [] None)
    as (_ & (_ & Hfail) & _).
  apply Hfail.
  exists Examples.failing_client. eexists _, _.
  repeat split; reflexivity.
Defined.

(** ** Construction *)

Lemma init_cases (env : Env) (api_key : option string) (w : World) :
  let key := or_else api_key (MEMO_API_KEY env) in
  ∃ self w',
    MemoryClient.__init__ env api_key w = (Return self, w') ∧
    MemoryClient.api_key self = key ∧
    heap w' = heap w ∧
    if MEM0_AVAILABLE env && truthy key then
      mem0_calls w' = mem0_calls w ++ [Mem0_init key] ∧
      match Mem0Client_new env (mem0_calls w) key with
      | Return cl =>
          MemoryClient.enabled self = true ∧
          MemoryClient.client self = Some cl
      | Raise _ =>
          MemoryClient.enabled self = false ∧
          MemoryClient.client self = None
      end
    else
      mem0_calls w' = mem0_calls w ∧
      MemoryClient.enabled self = false ∧
      MemoryClient.client self = None.
Proof.
  intros key. unfold MemoryClient.__init__. fold key.
  destruct (MEM0_AVAILABLE env); simpl.
  - destruct (truthy key) eqn:K; simpl.
    + py_unfold.
      destruct (Mem0Client_new env (mem0_calls w) key);
        eexists _, _; (split; [reflexivity|]); done.
    + py_unfold. eexists _, _. split; [reflexivity|]. done.
  - py_unfold. eexists _, _. split; [reflexivity|]. done.
Qed.

(** C4.  Construction returns a gateway whatever the arguments, the
    configuration and the behaviour of the mem0 constructor: it never
    raises.  The gateway is enabled exactly when the library was
    importable, the resolved API key (the argument, or else the configured
    one) is non-empty and the construction of the mem0 client succeeded;
    a gateway that is not enabled holds no client. *)
Theorem init_enabled_iff (env : Env) (api_key : option string) (w : World) :
  let key := or_else api_key (MEMO_API_KEY env) in
  ∃ self w',
    MemoryClient.__init__ env api_key w = (Return self, w') ∧
    (MemoryClient.enabled self = true ↔
       MEM0_AVAILABLE env = true ∧ truthy key = true ∧
       succeeded (Mem0Client_new env (mem0_calls w) key) = true) ∧
    (MemoryClient.enabled self = false → MemoryClient.client self = None) ∧
    (MemoryClient.enabled self = true → is_Some (MemoryClient.client self)).
Proof.
  intros key.
  destruct (init_cases env api_key w) as (self & w' & Run & _ & _ & H).
  fold key in H. exists self, w'. split; [done|].
  destruct (MEM0_AVAILABLE env), (truthy key); simpl in H.
  - destruct H as [_ H].
    destruct (Mem0Client_new env (mem0_calls w) key) as [cl|e];
      destruct H as [-> ->]; simpl; split_and!; eauto;
      intuition discriminate.
  - destruct H as (_ & -> & ->). split_and!; eauto; intuition discriminate.
  - destruct H as (_ & -> & ->). split_and!; eauto; intuition discriminate.
  - destruct H as (_ & -> & ->). split_and!; eauto; intuition discriminate.
Qed.

Lemma init_enabled_iff_witness :
  ∃ self w',
    MemoryClient.__init__
      (mkEnv true None
         (fun _ _ => Raise (mkException "ValueError" "invalid API key")))
      (Some "m0-key") Examples.empty_world = (Return self, w') ∧
    MemoryClient.enabled self = false ∧
    MemoryClient.client self = None.
Proof.
  destruct (init_enabled_iff
              (mkEnv true None
                 (fun _ _ => Raise (mkException "ValueError" "invalid API key")))
              (Some "m0-key") Examples.empty_world)
    as (self & w' & Run & Hiff & Hoff & _).
  exists self, w'. split; [exact Run|].
  assert (MemoryClient.enabled self = false) as E.
  { destruct (MemoryClient.enabled self); [|reflexivity].
    destruct (proj1 Hiff eq_refl) as (_ & _ & Hnew). discriminate Hnew. }
  split; [exact E | exact (Hoff E)].
Defined.

(** ** The accessor *)

Lemma get_memory_client_stored (env : Env) (p : Process) (r : nat) :
  _memory_client p = Some r →
  get_memory_client env p = (Return (Some r), p).
Proof. intros E. unfold get_memory_client. by rewrite E. Qed.

Lemma get_memory_client_times_stored (env : Env) (p : Process) (r : nat)
    (n : nat) :
  _memory_client p = Some r →
  get_memory_client_times n env p = (replicate n (Return (Some r)), p).
Proof.
  intros E. induction n as [|n IH]; simpl; [done|].
  by rewrite (get_memory_client_stored env p r E), IH.
Qed.

(** C8.  The accessor returns a stored gateway object [r].  When none was
    stored, this first call constructs exactly one object and stores it;
    every later call, however many, returns the same object [r] and
    leaves the process as it is, so that nothing more is constructed. *)
Theorem get_memory_client_singleton (env : Env) (p : Process) :
  ∃ r p1,
    get_memory_client env p = (Return (Some r), p1) ∧
    _memory_client p1 = Some r ∧
    (_memory_client p = None →
       r = length (objects p) ∧
       ∃ self, objects p1 = objects p ++ [self] ∧
               fst (MemoryClient.__init__ env None (world p)) = Return self) ∧
    (is_Some (_memory_client p) → p1 = p) ∧
    (∀ n, get_memory_client_times n env p1
            = (replicate n (Return (Some r)), p1)) ∧
    (∀ n, objects (snd (get_memory_client_times n env p1)) = objects p1).
Proof.
  destruct (_memory_client p) as [r|] eqn:G.
  - exists r, p. rewrite (get_memory_client_stored env p r G).
    split_and!; try done.
    + intros n. by apply get_memory_client_times_stored.
    + intros n. by rewrite (get_memory_client_times_stored env p r n G).
  - destruct (init_cases env None (world p)) as (self & w' & Run & _).
    unfold get_memory_client, new_MemoryClient. rewrite G, Run. simpl.
    eexists _, _. split; [reflexivity|]. simpl.
    split_and!; try done.
    + intros _. split; [done|]. by exists self.
    + intros n. by apply get_memory_client_times_stored.
    + intros n. by erewrite get_memory_client_times_stored.
Qed.

Lemma get_memory_client_singleton_witness :
  ∃ r, get_memory_client_times 3 Examples.env_ok
         (imported Examples.empty_world)
       = ([Return (Some r); Return (Some r); Return (Some r)],
          snd (get_memory_client Examples.env_ok
                 (imported Examples.empty_world))) ∧
       r = 0%nat.
Proof.
  destruct (get_memory_client_singleton Examples.env_ok
              (imported Examples.empty_world))
    as (r & p1 & Run & _ & Hfirst & _ & Hlater & _).
  exists r. destruct (Hfirst eq_refl) as [-> _]. split; [|reflexivity].
  change (get_memory_client_times 3 Examples.env_ok
            (imported Examples.empty_world))
    with (let '(r0, p') := get_memory_client Examples.env_ok
                             (imported Examples.empty_world) in
          let '(rs, p'') := get_memory_client_times 2 Examples.env_ok p' in
          (r0 :: rs, p'')).
  rewrite Run. simpl snd. by rewrite (Hlater 2%nat).
Defined.

(** ** Further properties of the gateway *)

Lemma logged_app (w w' : World) (rs : list (LogLevel * string)) :
  log w' = log w ++ rs → logged w w' = rs.
Proof. intros E. unfold logged. rewrite E. by rewrite drop_app_length. Qed.

(** What [search] does on an enabled gateway that holds a client. *)
Lemma search_run (self : MemoryClient.t) (cl : Mem0Client) (query : string)
    (user_id agent_id : option string) (limit : Z) (w : World) :
  MemoryClient.enabled self = true →
  MemoryClient.client self = Some cl →
  let c := search_request query user_id agent_id limit in
  MemoryClient.search self query user_id agent_id limit w =
    match respond cl (mem0_calls w) c with
    | Return result =>
        match len (extract_results result) with
        | Return n =>
            (Return (extract_results result),
             after_call w c
               (DEBUG, "Found " +:+ pretty n
                       +:+ " relevant memories for query: "
                       +:+ String.substring 0 50 query +:+ "..."))
        | Raise e =>
            (Return (VList []),
             after_call w c (ERROR, "Error searching memories: " +:+ exc_msg e))
        end
    | Raise e =>
        (Return (VList []),
         after_call w c (ERROR, "Error searching memories: " +:+ exc_msg e))
    end.
Proof.
  intros Hen Hcl c. subst c. unfold search_request, after_call.
  py_unfold. rewrite Hen, Hcl. simpl.
  destruct (respond cl (mem0_calls w) _) as [r|e]; simpl; [|done].
  fold (extract_results r). by destruct (len (extract_results r)).
Qed.

Lemma get_all_run (self : MemoryClient.t) (cl : Mem0Client)
    (user_id agent_id : option string) (limit : Z) (w : World) :
  MemoryClient.enabled self = true →
  MemoryClient.client self = Some cl →
  let c := Mem0_get_all user_id limit in
  MemoryClient.get_all self user_id agent_id limit w =
    match respond cl (mem0_calls w) c with
    | Return (VList l) =>
        (Return (VList l),
         after_call w c
           (DEBUG, "Retrieved " +:+ pretty (length l) +:+ " total memories"))
    | Return _ =>
        (Return (VList []),
         after_call w c (DEBUG, "Retrieved 0 total memories"))
    | Raise e =>
        (Return (VList []),
         after_call w c (ERROR, "Error getting all memories: " +:+ exc_msg e))
    end.
Proof.
  intros Hen Hcl c. subst c. unfold after_call.
  py_unfold. rewrite Hen, Hcl. simpl.
  destruct (respond cl (mem0_calls w) _) as [r|e]; simpl; [|done].
  by destruct r.
Qed.

Lemma delete_run (self : MemoryClient.t) (cl : Mem0Client)
    (memory_id : string) (w : World) :
  MemoryClient.enabled self = true →
  MemoryClient.client self = Some cl →
  let c := Mem0_delete memory_id in
  MemoryClient.delete self memory_id w =
    match respond cl (mem0_calls w) c with
    | Return _ =>
        (Return true, after_call w c (DEBUG, "Deleted memory: " +:+ memory_id))
    | Raise e =>
        (Return false,
         after_call w c (ERROR, "Error deleting memory: " +:+ exc_msg e))
    end.
Proof.
  intros Hen Hcl c. subst c. unfold after_call.
  py_unfold. rewrite Hen, Hcl. simpl.
  by destruct (respond cl (mem0_calls w) _).
Qed.

Lemma add_run (self : MemoryClient.t) (cl : Mem0Client)
    (messages : list (gmap string string)) (user_id agent_id : option string)
    (metadata : option nat) (w : World) :
  MemoryClient.enabled self = true →
  MemoryClient.client self = Some cl →
  let c := add_request (heap w) messages user_id agent_id metadata in
  let h := heap_after_merge (heap w) agent_id metadata in
  MemoryClient.add self messages user_id agent_id metadata w =
    match respond cl (mem0_calls w) c with
    | Return _ =>
        (Return true,
         mkWorld (mem0_calls w ++ [c]) h
           (log w ++ [(DEBUG, "Added memories from "
                              +:+ pretty (length messages) +:+ " messages")]))
    | Raise e =>
        (Return false,
         mkWorld (mem0_calls w ++ [c]) h
           (log w ++ [(ERROR, "Error adding memories: " +:+ exc_msg e)]))
    end.
Proof.
  intros Hen Hcl c h. subst c h. unfold add_request.
  py_unfold. rewrite Hen, Hcl. simpl.
  unfold heap_after_merge, submitted_ref, merged.
  destruct metadata as [l|];
    [destruct (truthy_dict (heap w) (Some l)) eqn:T|]; simpl.
  - unfold truthy_dict in T. unfold items.
    destruct (heap w !! l) as [d|] eqn:Hl; [|done]. simpl.
    assert (l < length (heap w))%nat as Hlt by (by eapply lookup_lt_Some).
    destruct (truthy agent_id); simpl.
    + rewrite Hl. simpl. unfold items.
      rewrite list_lookup_insert_eq by done. simpl.
      by destruct (respond cl _ _).
    + unfold items. rewrite Hl. simpl. rewrite list_insert_id by done.
      by destruct (respond cl _ _).
  - pose proof (provided_falsy _ _ T) as P. simpl in P. rewrite !P.
    destruct (truthy agent_id); simpl; unfold items; py_heap;
      by destruct (respond cl _ _).
  - destruct (truthy agent_id); simpl; unfold items; py_heap;
      by destruct (respond cl _ _).
Qed.

(** *** Failures are logged, once *)

(** X1.  When the client raises [e], the operation leaves exactly one record in
    the log: at level [ERROR], with [str(e)] in its message. *)
Theorem failures_are_logged (self : MemoryClient.t) (cl : Mem0Client)
    (w : World) (query memory_id : string) (user_id agent_id : option string)
    (limit : Z) (messages : list (gmap string string))
    (metadata : option nat) (e : Exception) :
  MemoryClient.enabled self = true →
  MemoryClient.client self = Some cl →
  (respond cl (mem0_calls w) (search_request query user_id agent_id limit)
     = Raise e →
   logged w (snd (MemoryClient.search self query user_id agent_id limit w))
     = [(ERROR, "Error searching memories: " +:+ exc_msg e)]) ∧
  (respond cl (mem0_calls w) (Mem0_get_all user_id limit) = Raise e →
   logged w (snd (MemoryClient.get_all self user_id agent_id limit w))
     = [(ERROR, "Error getting all memories: " +:+ exc_msg e)]) ∧
  (respond cl (mem0_calls w)
     (add_request (heap w) messages user_id agent_id metadata) = Raise e →
   logged w (snd (MemoryClient.add self messages user_id agent_id metadata w))
     = [(ERROR, "Error adding memories: " +:+ exc_msg e)]) ∧
  (respond cl (mem0_calls w) (Mem0_delete memory_id) = Raise e →
   logged w (snd (MemoryClient.delete self memory_id w))
     = [(ERROR, "Error deleting memory: " +:+ exc_msg e)]).
Proof.
  intros Hen Hcl. split_and!; intros R.
  - rewrite (search_run _ _ _ _ _ _ _ Hen Hcl). simpl. rewrite R.
    by apply logged_app.
  - rewrite (get_all_run _ _ _ _ _ _ Hen Hcl). simpl. rewrite R.
    by apply logged_app.
  - rewrite (add_run _ _ _ _ _ _ _ Hen Hcl). simpl. rewrite R.
    by apply logged_app.
  - rewrite (delete_run _ _ _ _ Hen Hcl). simpl. rewrite R.
    by apply logged_app.
Qed.

Lemma failures_are_logged_witness :
  logged Examples.empty_world
    (snd (MemoryClient.delete (Examples.gateway Examples.failing_client)
            "mem-1" Examples.empty_world))
    = [(ERROR, "Error deleting memory: connection refused")].
Proof.
  destruct (failures_are_logged (Examples.gateway Examples.failing_client)
              Examples.failing_client Examples.empty_world "" "mem-1"
              None None 5 [] None
              (mkException "ConnectionError" "connection refused")
              eq_refl eq_refl) as (_ & _ & _ & Hdel).
  exact (Hdel eq_refl).
Defined.

(** *** A result without a length *)

(** X2.  If the mapping the client returned holds under ["results"] a value
    without a length ([None], a number), the [len] in the debug message
    raises a [TypeError]: [search] returns [[]] and logs the error. *)
Theorem search_unsized_results (self : MemoryClient.t) (cl : Mem0Client)
    (query : string) (user_id agent_id : option string) (limit : Z)
    (w : World) (d : dict) (r : PyValue) :
  MemoryClient.enabled self = true →
  MemoryClient.client self = Some cl →
  respond cl (mem0_calls w) (search_request query user_id agent_id limit)
    = Return (VDict d) →
  d !! "results" = Some r → sized r = false →
  MemoryClient.search self query user_id agent_id limit w
    = (Return (VList []),
       after_call w (search_request query user_id agent_id limit)
         (ERROR, "Error searching memories: object of type '"
                 +:+ type_name r +:+ "' has no len()")).
Proof.
  intros Hen Hcl R Hr Hs.
  rewrite (search_run _ _ _ _ _ _ _ Hen Hcl). simpl. rewrite R. simpl.
  rewrite Hr. simpl. by destruct r.
Qed.

Lemma search_unsized_results_witness :
  fst (MemoryClient.search
         (Examples.gateway
            (mkMem0Client (fun _ _ => Return (VDict {["results" := VNone]}))))
         "what is my name" (Some "u1") None 5 Examples.empty_world)
    = Return (VList []).
Proof.
  erewrite (search_unsized_results
              (Examples.gateway
                 (mkMem0Client
                    (fun _ _ => Return (VDict {["results" := VNone]}))))
              (mkMem0Client (fun _ _ => Return (VDict {["results" := VNone]})))
              "what is my name" (Some "u1") None 5 Examples.empty_world
              {["results" := VNone]} VNone);
    reflexivity.
Defined.

(** *** The envelope [search] accepts, [get_all] rejects *)

(** X3.  [get_all] returns what the client returned only if that is a list.
    The mapping with a ["results"] list, from which [search] takes the
    list, makes [get_all] return [[]]. *)
Theorem get_all_requires_list (self : MemoryClient.t) (cl : Mem0Client)
    (query : string) (user_id agent_id : option string) (limit : Z)
    (w : World) (v : PyValue) :
  MemoryClient.enabled self = true →
  MemoryClient.client self = Some cl →
  respond cl (mem0_calls w) (Mem0_get_all user_id limit) = Return v →
  let out := fst (MemoryClient.get_all self user_id agent_id limit w) in
  (∀ l, v = VList l → out = Return (VList l)) ∧
  (is_list v = false → out = Return (VList [])) ∧
  (∀ d l, v = VDict d → d !! "results" = Some (VList l) →
     out = Return (VList []) ∧
     (respond cl (mem0_calls w) (search_request query user_id agent_id limit)
        = Return v →
      fst (MemoryClient.search self query user_id agent_id limit w)
        = Return (VList l))).
Proof.
  intros Hen Hcl R out. subst out.
  rewrite (get_all_run _ _ _ _ _ _ Hen Hcl). simpl. rewrite R.
  split_and!.
  - by intros l ->.
  - by destruct v.
  - intros d l -> Hr. split; [done|]. intros Rs.
    rewrite (search_run _ _ _ _ _ _ _ Hen Hcl). simpl. rewrite Rs. simpl.
    by rewrite Hr.
Qed.

Lemma get_all_requires_list_witness :
  fst (MemoryClient.get_all
         (Examples.gateway
            (mkMem0Client
               (fun _ _ => Return (VDict {["results" := VList [VStr "m"]]}))))
         (Some "u1") None 100 Examples.empty_world)
    = Return (VList []) ∧
  fst (MemoryClient.search
         (Examples.gateway
            (mkMem0Client
               (fun _ _ => Return (VDict {["results" := VList [VStr "m"]]}))))
         "q" (Some "u1") None 100 Examples.empty_world)
    = Return (VList [VStr "m"]).
Proof.
  destruct (get_all_requires_list
              (Examples.gateway
                 (mkMem0Client
                    (fun _ _ =>
                       Return (VDict {["results" := VList [VStr "m"]]}))))
              (mkMem0Client
                 (fun _ _ => Return (VDict {["results" := VList [VStr "m"]]})))
              "q" (Some "u1") None 100 Examples.empty_world
              (VDict {["results" := VList [VStr "m"]]})
              eq_refl eq_refl eq_refl) as (_ & _ & Henv).
  destruct (Henv {["results" := VList [VStr "m"]]} [VStr "m"]
              eq_refl ltac:(reflexivity)) as [Hg Hs].
  split; [exact Hg | apply Hs; reflexivity].
Defined.

(** *** The value the client returns to [add] and [delete] is not read *)

(** X4.  [add] and [delete] answer [True] as soon as the client call returns,
    whatever it returns, and [False] exactly when it raises. *)
Theorem add_delete_ignore_response (self : MemoryClient.t) (cl : Mem0Client)
    (w : World) (memory_id : string) (user_id agent_id : option string)
    (messages : list (gmap string string)) (metadata : option nat) :
  MemoryClient.enabled self = true →
  MemoryClient.client self = Some cl →
  fst (MemoryClient.add self messages user_id agent_id metadata w)
    = Return (succeeded
                (respond cl (mem0_calls w)
                   (add_request (heap w) messages user_id agent_id metadata))) ∧
  fst (MemoryClient.delete self memory_id w)
    = Return (succeeded (respond cl (mem0_calls w) (Mem0_delete memory_id))).
Proof.
  intros Hen Hcl. split.
  - rewrite (add_run _ _ _ _ _ _ _ Hen Hcl). simpl.
    by destruct (respond cl _ _).
  - rewrite (delete_run _ _ _ _ Hen Hcl). simpl.
    by destruct (respond cl _ _).
Qed.

Lemma add_delete_ignore_response_witness :
  fst (MemoryClient.delete
         (Examples.gateway
            (mkMem0Client
               (fun _ _ => Return (VDict {["error" := VStr "not found"]}))))
         "no-such-id" Examples.empty_world)
    = Return true.
Proof.
  exact (proj2 (add_delete_ignore_response
                  (Examples.gateway
                     (mkMem0Client
                        (fun _ _ =>
                           Return (VDict {["error" := VStr "not found"]}))))
                  (mkMem0Client
                     (fun _ _ =>
                        Return (VDict {["error" := VStr "not found"]})))
                  Examples.empty_world "no-such-id" None None [] None
                  eq_refl eq_refl)).
Defined.

(** *** The API key *)

(** X5.  An explicit non-empty key is the one used, whatever is configured; an
    explicit empty key counts as none: construction runs as if no
    argument had been given, on the configured key. *)
Theorem init_key_precedence (avail : bool) (configured configured' : option string)
    (new : list Mem0Call → option string → outcome Mem0Client)
    (k : string) (w : World) :
  (k ≠ "" →
   MemoryClient.__init__ (mkEnv avail configured new) (Some k) w
     = MemoryClient.__init__ (mkEnv avail configured' new) (Some k) w ∧
   ∃ self w', MemoryClient.__init__ (mkEnv avail configured new) (Some k) w
                = (Return self, w') ∧
              MemoryClient.api_key self = Some k) ∧
  MemoryClient.__init__ (mkEnv avail configured new) (Some "") w
    = MemoryClient.__init__ (mkEnv avail configured new) None w.
Proof.
  split; [|reflexivity].
  intros Hk. pose proof (truthy_Some k Hk) as T.
  split.
  - unfold MemoryClient.__init__, or_else. simpl MEMO_API_KEY.
    by rewrite !T.
  - destruct (init_cases (mkEnv avail configured new) (Some k) w)
      as (self & w' & Run & Hkey & _).
    exists self, w'. split; [done|]. rewrite Hkey. unfold or_else.
    by rewrite T.
Qed.

Lemma init_key_precedence_witness :
  MemoryClient.__init__ (mkEnv true (Some "configured") (fun _ _ => Return Examples.alice_client))
    (Some "explicit") Examples.empty_world
  = MemoryClient.__init__ (mkEnv true None (fun _ _ => Return Examples.alice_client))
      (Some "explicit") Examples.empty_world.
Proof.
  refine (proj1 (proj1 (init_key_precedence true (Some "configured") None
                          (fun _ _ => Return Examples.alice_client)
                          "explicit" Examples.empty_world) _)).
  discriminate.
Defined.

(** X6.  The mem0 constructor is called only when the library is there and the
    resolved key is non-empty, then once and with that key; otherwise
    construction makes no call into mem0 at all. *)
Theorem init_constructor_call (env : Env) (api_key : option string)
    (w : World) :
  let key := or_else api_key (MEMO_API_KEY env) in
  calls_made w (snd (MemoryClient.__init__ env api_key w))
    = if MEM0_AVAILABLE env && truthy key then [Mem0_init key] else [].
Proof.
  intros key.
  destruct (init_cases env api_key w) as (self & w' & Run & _ & _ & H).
  fold key in H. rewrite Run. simpl.
  destruct (MEM0_AVAILABLE env && truthy key).
  - destruct H as [E _]. by apply calls_made_app.
  - destruct H as [E _]. apply calls_made_app. by rewrite app_nil_r.
Qed.

(** *** [add] and the caller's dictionaries *)

(** X7.  An empty metadata dictionary is not the one [add] works on:
    [metadata or {}] makes a new dictionary, the caller's stays empty, and
    the client receives the new object. *)
Theorem add_empty_metadata_untouched (self : MemoryClient.t)
    (cl : Mem0Client) (messages : list (gmap string string))
    (user_id agent_id : option string) (l : nat) (w : World) :
  MemoryClient.enabled self = true →
  MemoryClient.client self = Some cl →
  heap w !! l = Some ∅ →
  let w' :=
    snd (MemoryClient.add self messages user_id agent_id (Some l) w) in
  heap w' !! l = Some ∅ ∧
  heap w' = heap w ++ [merged agent_id ∅] ∧
  calls_made w w'
    = [Mem0_add messages user_id (length (heap w)) (merged agent_id ∅)] ∧
  l ≠ length (heap w).
Proof.
  intros Hen Hcl Hl w'. subst w'.
  assert (l < length (heap w))%nat as Hlt by (by eapply lookup_lt_Some).
  assert (truthy_dict (heap w) (Some l) = false) as T.
  { simpl. rewrite Hl. by rewrite bool_decide_eq_true_2. }
  rewrite (add_run _ _ _ _ _ _ _ Hen Hcl). simpl.
  unfold add_request, heap_after_merge, submitted_ref.
  rewrite T, (provided_falsy _ _ T).
  destruct (respond cl _ _); simpl; split_and!; try done; try lia.
  - by rewrite lookup_app_l.
  - by apply calls_made_app.
  - by rewrite lookup_app_l.
  - by apply calls_made_app.
Qed.

Lemma add_empty_metadata_untouched_witness :
  heap (snd (MemoryClient.add (Examples.gateway Examples.alice_client) []
               (Some "u1") (Some "agent-1") (Some 0%nat)
               (mkWorld [] [∅] []))) !! 0%nat
    = Some ∅.
Proof.
  exact (proj1 (add_empty_metadata_untouched
                  (Examples.gateway Examples.alice_client)
                  Examples.alice_client [] (Some "u1") (Some "agent-1")
                  0%nat (mkWorld [] [∅] []) eq_refl eq_refl eq_refl)).
Defined.

(** X8.  Without an agent identifier ([None] or the empty string) a non-empty
    metadata dictionary is handed to the client as it is: no dictionary
    is written or created. *)
Theorem add_without_agent_keeps_heap (self : MemoryClient.t)
    (messages : list (gmap string string)) (user_id agent_id : option string)
    (l : nat) (d : dict) (w : World) :
  truthy agent_id = false →
  heap w !! l = Some d → d ≠ ∅ →
  heap (snd (MemoryClient.add self messages user_id agent_id (Some l) w))
    = heap w.
Proof.
  intros Ha Hl Hd.
  destruct (add_cases self messages user_id agent_id (Some l) w)
    as (b & w' & Run & H).
  rewrite Run. simpl.
  assert (heap_after_merge (heap w) agent_id (Some l) = heap w) as E.
  { unfold heap_after_merge, submitted_ref, merged, provided, items.
    simpl. rewrite Hl, Ha. simpl.
    rewrite (bool_decide_eq_false_2 _ Hd). simpl.
    by apply list_insert_id. }
  destruct (MemoryClient.enabled self);
    [destruct (MemoryClient.client self)|].
  - destruct H as (_ & _ & ->). done.
  - destruct H as (_ & _ & ->). done.
  - destruct H as [_ ->]. done.
Qed.

Lemma add_without_agent_keeps_heap_witness :
  heap (snd (MemoryClient.add (Examples.gateway Examples.alice_client) []
               (Some "u1") (Some "") (Some 0%nat)
               (mkWorld [] [{["test" := VBool true]}] [])))
    = [{["test" := VBool true]}].
Proof.
  refine (add_without_agent_keeps_heap
            (Examples.gateway Examples.alice_client) [] (Some "u1") (Some "")
            0%nat {["test" := VBool true]}
            (mkWorld [] [{["test" := VBool true]}] []) eq_refl eq_refl _).
  intros E. apply (f_equal (λ m : dict, m !! "test")) in E. discriminate E.
Defined.

(** X9.  What the operations leave alone: [search], [get_all] and [delete]
    never touch a dictionary, and [add] changes no dictionary but the one
    it hands to the client. *)
Theorem operations_frame (self : MemoryClient.t) (w : World)
    (query memory_id : string) (user_id agent_id : option string)
    (limit : Z) (messages : list (gmap string string))
    (metadata : option nat) :
  heap (snd (MemoryClient.search self query user_id agent_id limit w))
    = heap w ∧
  heap (snd (MemoryClient.get_all self user_id agent_id limit w)) = heap w ∧
  heap (snd (MemoryClient.delete self memory_id w)) = heap w ∧
  (∀ l d, heap w !! l = Some d →
          l ≠ submitted_ref (heap w) metadata →
          heap (snd (MemoryClient.add self messages user_id agent_id
                       metadata w)) !! l = Some d).
Proof.
  split_and!.
  - destruct (search_cases self query user_id agent_id limit w)
      as (v & w' & -> & E & _). done.
  - destruct (get_all_cases self user_id agent_id limit w)
      as (v & w' & -> & E & _). done.
  - destruct (delete_cases self memory_id w) as (v & w' & -> & E & _). done.
  - intros l d Hl Hne.
    destruct (add_cases self messages user_id agent_id metadata w)
      as (b & w' & -> & H). simpl.
    assert (heap_after_merge (heap w) agent_id metadata !! l = Some d) as E.
    { unfold heap_after_merge.
      destruct (truthy_dict (heap w) metadata).
      - by rewrite list_lookup_insert_ne.
      - rewrite lookup_app_l; [done|]. by eapply lookup_lt_Some. }
    destruct (MemoryClient.enabled self);
      [destruct (MemoryClient.client self)|].
    + destruct H as (_ & _ & ->). done.
    + destruct H as (_ & _ & ->). done.
    + destruct H as [_ ->]. done.
Qed.

Lemma operations_frame_witness :
  heap (snd (MemoryClient.add (Examples.gateway Examples.alice_client) []
               (Some "u1") (Some "agent-1") (Some 1%nat)
               (mkWorld [] [{["other" := VInt 1]}; {["test" := VBool true]}]
                  []))) !! 0%nat
    = Some {["other" := VInt 1]}.
Proof.
  destruct (operations_frame (Examples.gateway Examples.alice_client)
              (mkWorld [] [{["other" := VInt 1]}; {["test" := VBool true]}] [])
              "" "" (Some "u1") (Some "agent-1") 5 [] (Some 1%nat))
    as (_ & _ & _ & Hadd).
  apply Hadd; [reflexivity|].
  vm_compute. discriminate.
Defined.

(** X10.  A failed [add] has already written to the caller's dictionary: the
    answer is [False], and the key ["agent_id"] stays merged. *)
Theorem failed_add_still_mutates (self : MemoryClient.t) (cl : Mem0Client)
    (messages : list (gmap string string)) (user_id : option string)
    (s : string) (l : nat) (d : dict) (w : World) (e : Exception) :
  MemoryClient.enabled self = true →
  MemoryClient.client self = Some cl →
  heap w !! l = Some d → d ≠ ∅ → s ≠ "" →
  respond cl (mem0_calls w)
    (Mem0_add messages user_id l (<["agent_id" := VStr s]> d)) = Raise e →
  let r := MemoryClient.add self messages user_id (Some s) (Some l) w in
  fst r = Return false ∧
  heap (snd r) !! l = Some (<["agent_id" := VStr s]> d).
Proof.
  intros Hen Hcl Hl Hd Hs R r. subst r.
  assert (l < length (heap w))%nat as Hlt by (by eapply lookup_lt_Some).
  assert (truthy_dict (heap w) (Some l) = true) as T.
  { simpl. rewrite Hl. by rewrite (bool_decide_eq_false_2 _ Hd). }
  rewrite (add_run _ _ _ _ _ _ _ Hen Hcl). simpl.
  unfold add_request, heap_after_merge, submitted_ref, merged, provided, items.
  rewrite T, (truthy_Some s Hs), Hl. simpl. rewrite R. simpl.
  split; [done|]. by rewrite list_lookup_insert_eq.
Qed.

Lemma failed_add_still_mutates_witness :
  fst (MemoryClient.add (Examples.gateway Examples.failing_client) []
         (Some "u1") (Some "agent-1") (Some 0%nat)
         (mkWorld [] [{["test" := VBool true]}] []))
    = Return false ∧
  items (heap (snd (MemoryClient.add
                      (Examples.gateway Examples.failing_client) []
                      (Some "u1") (Some "agent-1") (Some 0%nat)
                      (mkWorld [] [{["test" := VBool true]}] []))))
    0%nat !! "agent_id"
    = Some (VStr "agent-1").
Proof.
  destruct (failed_add_still_mutates
              (Examples.gateway Examples.failing_client)
              Examples.failing_client [] (Some "u1") "agent-1" 0%nat
              {["test" := VBool true]}
              (mkWorld [] [{["test" := VBool true]}] [])
              (mkException "ConnectionError" "connection refused")
              eq_refl eq_refl eq_refl)
    as [Hres Hheap].
  - intros E. apply (f_equal (λ m : dict, m !! "test")) in E. discriminate E.
  - discriminate.
  - reflexivity.
  - split; [exact Hres|]. unfold items. rewrite Hheap. reflexivity.
Defined.

(** *** Gateways made by [__init__] *)

Lemma calls_made_after_call (w : World) (c : Mem0Call)
    (record : LogLevel * string) :
  calls_made w (after_call w c record) = [c].
Proof. by apply calls_made_app. Qed.

Lemma disabled_calls_nothing (self : MemoryClient.t) (w : World)
    (query memory_id : string) (user_id agent_id : option string)
    (limit : Z) (messages : list (gmap string string))
    (metadata : option nat) :
  MemoryClient.enabled self = false →
  snd (MemoryClient.search self query user_id agent_id limit w) = w ∧
  snd (MemoryClient.get_all self user_id agent_id limit w) = w ∧
  snd (MemoryClient.add self messages user_id agent_id metadata w) = w ∧
  snd (MemoryClient.delete self memory_id w) = w.
Proof. intros Hoff. py_unfold. by rewrite Hoff. Qed.

(** X11.  [__init__] makes a gateway that is enabled exactly when it holds a
    client.  On such a gateway an operation calls the client exactly once
    when the gateway is enabled, and never otherwise. *)
Theorem constructed_gateway_calls (env : Env) (api_key : option string)
    (w0 w : World) (query memory_id : string)
    (user_id agent_id : option string) (limit : Z)
    (messages : list (gmap string string)) (metadata : option nat) :
  ∃ self,
    fst (MemoryClient.__init__ env api_key w0) = Return self ∧
    (MemoryClient.enabled self = true ↔ is_Some (MemoryClient.client self)) ∧
    let n := if MemoryClient.enabled self then 1%nat else 0%nat in
    length (calls_made w
              (snd (MemoryClient.search self query user_id agent_id limit w)))
      = n ∧
    length (calls_made w
              (snd (MemoryClient.get_all self user_id agent_id limit w)))
      = n ∧
    length (calls_made w
              (snd (MemoryClient.add self messages user_id agent_id
                      metadata w)))
      = n ∧
    length (calls_made w (snd (MemoryClient.delete self memory_id w))) = n.
Proof.
  destruct (init_cases env api_key w0) as (self & w' & Run & _ & _ & H).
  exists self. rewrite Run. split; [done|].
  assert (MemoryClient.enabled self = true ∧
            (∃ cl, MemoryClient.client self = Some cl) ∨
          MemoryClient.enabled self = false ∧
            MemoryClient.client self = None) as [[Hen [cl Hcl]]|[Hen Hcl]].
  { destruct (MEM0_AVAILABLE env && truthy _).
    - destruct H as [_ H].
      destruct (Mem0Client_new env _ _) as [cl|]; destruct H as [Hen Hcl];
        [left | right]; eauto.
    - destruct H as (_ & Hen & Hcl). by right. }
  - split. { rewrite Hen, Hcl. split; eauto. }
    rewrite Hen. simpl. split_and!.
    + rewrite (search_run _ _ _ _ _ _ _ Hen Hcl). cbv zeta.
      destruct (respond cl _ _) as [r|]; [destruct (len _)|];
        simpl snd; by rewrite calls_made_after_call.
    + rewrite (get_all_run _ _ _ _ _ _ Hen Hcl). cbv zeta.
      destruct (respond cl _ _) as [[]|]; simpl snd;
        by rewrite calls_made_after_call.
    + rewrite (add_run _ _ _ _ _ _ _ Hen Hcl). simpl.
      destruct (respond cl _ _); simpl snd;
        (erewrite calls_made_app; [|reflexivity]); done.
    + rewrite (delete_run _ _ _ _ Hen Hcl). cbv zeta.
      destruct (respond cl _ _); simpl snd;
        by rewrite calls_made_after_call.
  - split. { rewrite Hen, Hcl. split; [done|]. by intros [? ?]. }
    destruct (disabled_calls_nothing self w query memory_id user_id agent_id
                limit messages metadata Hen) as (-> & -> & -> & ->).
    rewrite Hen. simpl. unfold calls_made. by rewrite drop_all.
Qed.

(** *** The accessor and a changing environment *)

(** X12.  Once the accessor has stored a gateway, the environment no longer
    matters: called under any other configuration (a key set later, the
    library installed later) it returns the stored object and constructs
    nothing, also when the stored gateway is a disabled one. *)
Theorem accessor_ignores_later_environment (env env' : Env) (p : Process)
    (n : nat) :
  let first := get_memory_client env p in
  get_memory_client_times n env' (snd first)
    = (replicate n (fst first), snd first) ∧
  objects (snd (get_memory_client_times n env' (snd first)))
    = objects (snd first) ∧
  calls_made (world (snd first))
    (world (snd (get_memory_client_times n env' (snd first)))) = [].
Proof.
  intros first. subst first.
  assert (∃ r p1, get_memory_client env p = (Return (Some r), p1) ∧
                  _memory_client p1 = Some r) as (r & p1 & Run & G).
  { destruct (_memory_client p) as [r|] eqn:G.
    - exists r, p. by rewrite (get_memory_client_stored env p r G).
    - destruct (init_cases env None (world p)) as (self & w' & Run & _).
      unfold get_memory_client, new_MemoryClient. rewrite G, Run. simpl.
      eauto. }
  rewrite Run. simpl.
  rewrite (get_memory_client_times_stored env' p1 r n G). simpl.
  split_and!; try done. unfold calls_made. by rewrite drop_all.
Qed.

(** ** What construction logs, and what the operations request *)

(** X13.  Construction writes exactly one log record, which names the outcome:
    the missing library (also when the key is missing as well), the
    missing key, the success, or the error of the mem0 constructor. *)
Theorem init_logs_reason (env : Env) (api_key : option string) (w : World) :
  let key := or_else api_key (MEMO_API_KEY env) in
  logged w (snd (MemoryClient.__init__ env api_key w))
    = [if negb (MEM0_AVAILABLE env) then
         (INFO, "Memory features disabled: mem0ai library not installed")
       else if negb (truthy key) then
         (INFO, "Memory features disabled: MEMO_API_KEY not configured")
       else
         match Mem0Client_new env (mem0_calls w) key with
         | Return _ => (INFO, "✅ Memory client initialized successfully")
         | Raise e =>
             (ERROR, "Failed to initialize memory client: " +:+ exc_msg e)
         end].
Proof.
  intros key. unfold MemoryClient.__init__. fold key.
  destruct (MEM0_AVAILABLE env); simpl.
  - destruct (truthy key); simpl.
    + py_unfold. destruct (Mem0Client_new env (mem0_calls w) key); simpl;
        by apply logged_app.
    + py_unfold. simpl. by apply logged_app.
  - py_unfold. simpl. by apply logged_app.
Qed.

(** X14.  What an enabled gateway asks of its client: each operation makes the
    one call below.  The limit goes out unchecked (zero and negative
    limits too), [search] sends the agent identifier as a keyword argument
    and the user identifier inside [filters], [get_all] sends no agent
    identifier at all. *)
Theorem remote_requests (self : MemoryClient.t) (cl : Mem0Client) (w : World)
    (query memory_id : string) (user_id agent_id : option string)
    (limit : Z) (messages : list (gmap string string))
    (metadata : option nat) :
  MemoryClient.enabled self = true →
  MemoryClient.client self = Some cl →
  calls_made w
    (snd (MemoryClient.search self query user_id agent_id limit w))
    = [Mem0_search query agent_id limit {["user_id" := of_optional user_id]}] ∧
  calls_made w (snd (MemoryClient.get_all self user_id agent_id limit w))
    = [Mem0_get_all user_id limit] ∧
  calls_made w
    (snd (MemoryClient.add self messages user_id agent_id metadata w))
    = [Mem0_add messages user_id (submitted_ref (heap w) metadata)
         (merged agent_id (provided (heap w) metadata))] ∧
  calls_made w (snd (MemoryClient.delete self memory_id w))
    = [Mem0_delete memory_id].
Proof.
  intros Hen Hcl. split_and!.
  - destruct (search_cases self query user_id agent_id limit w)
      as (v & w' & -> & _ & H). rewrite Hen, Hcl in H. destruct H as [_ E].
    by apply calls_made_app.
  - destruct (get_all_cases self user_id agent_id limit w)
      as (v & w' & -> & _ & H). rewrite Hen, Hcl in H. destruct H as [_ E].
    by apply calls_made_app.
  - destruct (add_cases self messages user_id agent_id metadata w)
      as (v & w' & -> & H). rewrite Hen, Hcl in H. destruct H as (_ & E & _).
    by apply calls_made_app.
  - destruct (delete_cases self memory_id w)
      as (v & w' & -> & _ & H). rewrite Hen, Hcl in H. destruct H as [_ E].
    by apply calls_made_app.
Qed.

Lemma remote_requests_witness :
  calls_made Examples.empty_world
    (snd (MemoryClient.search (Examples.gateway Examples.alice_client)
            "q" None None (-1) Examples.empty_world))
    = [Mem0_search "q" None (-1) {["user_id" := VNone]}].
Proof.
  exact (proj1 (remote_requests (Examples.gateway Examples.alice_client)
                  Examples.alice_client Examples.empty_world "q" ""
                  None None (-1) [] None eq_refl eq_refl)).
Defined.

(** ** The smoke test *)

Lemma extends_refl (s : Script) : extends s s [] [].
Proof. split; by rewrite app_nil_r. Qed.

Lemma extends_trans (s s' s'' : Script) (cs cs' : list Mem0Call)
    (zs zs' : list Z) :
  extends s s' cs zs → extends s' s'' cs' zs' →
  extends s s'' (cs ++ cs') (zs ++ zs').
Proof.
  intros [E1 Z1] [E2 Z2]. split.
  - by rewrite E2, E1, app_assoc.
  - by rewrite Z2, Z1, app_assoc.
Qed.

Lemma performs_bind {A B} (m : Sc A) (k : A → Sc B) (Q : A → Prop)
    (R : B → Prop) (cs cs' : list Mem0Call) (zs zs' : list Z) :
  performs m Q cs zs →
  (∀ a, Q a → performs (k a) R cs' zs') →
  performs (sbind m k) R (cs ++ cs') (zs ++ zs').
Proof.
  intros Hm Hk s. destruct (Hm s) as (a & s' & Run & Ha & E).
  destruct (Hk a Ha s') as (b & s'' & Run' & Hb & E').
  exists b, s''. unfold sbind. rewrite Run, Run'.
  split_and!; [done | done | by eapply extends_trans].
Qed.

Lemma performs_quiet_bind {A B} (m : Sc A) (k : A → Sc B) (Q : A → Prop)
    (R : B → Prop) (cs : list Mem0Call) (zs : list Z) :
  performs m Q [] [] →
  (∀ a, Q a → performs (k a) R cs zs) →
  performs (sbind m k) R cs zs.
Proof. intros Hm Hk. by apply (performs_bind m k Q R [] cs [] zs). Qed.

Lemma performs_weaken {A} (m : Sc A) (Q Q' : A → Prop)
    (cs : list Mem0Call) (zs : list Z) :
  performs m Q cs zs → (∀ a, Q a → Q' a) → performs m Q' cs zs.
Proof.
  intros Hm HQ s. destruct (Hm s) as (a & s' & Run & Ha & E). eauto 10.
Qed.

Lemma performs_sret {A} (a : A) : performs (sret a) (λ x, x = a) [] [].
Proof. intros s. exists a, s. split_and!; [done | done | apply extends_refl]. Qed.

Lemma performs_print (line : string) :
  performs (print line) (λ _, True) [] [].
Proof.
  intros s. eexists tt, _. split; [reflexivity|]. split; [done|].
  split; simpl; by rewrite app_nil_r.
Qed.

Lemma performs_sleep (seconds : Z) :
  performs (sleep seconds) (λ _, True) [] [seconds].
Proof.
  intros s. eexists tt, _. split; [reflexivity|]. split; [done|].
  split; simpl; [by rewrite app_nil_r | done].
Qed.

Lemma performs_lift {A} (a : A) :
  performs (lift_s (Return a)) (λ x, x = a) [] [].
Proof. intros s. exists a, s. split_and!; [done | done | apply extends_refl]. Qed.

(** A loop whose every turn returns, returns; its calls and sleeps are
    those of the turns, in order. *)
Lemma performs_for_each {A} (l : list A) (body : A → Sc unit)
    (calls : A → list Mem0Call) (sleeps : A → list Z) :
  Forall (λ x, performs (body x) (λ _, True) (calls x) (sleeps x)) l →
  performs (for_each l body) (λ _, True)
    (concat (map calls l)) (concat (map sleeps l)).
Proof.
  induction 1 as [|x l Hx _ IH]; simpl.
  - apply (performs_weaken _ _ _ _ _ (performs_sret tt)). done.
  - eapply performs_bind; [exact Hx|]. intros _ _. exact IH.
Qed.

Lemma Forall_enumerate {A} (P : A → Prop) (l : list A) (start : nat) :
  Forall P l → Forall (λ x, P x.2) (enumerate l start).
Proof.
  intros H. revert start. induction H as [|x l Hx _ IH]; intros start; simpl.
  - constructor.
  - constructor; [done | apply IH].
Qed.

Lemma concat_map_nil {A B} (l : list A) :
  concat (map (λ _ : A, @nil B) l) = [].
Proof. induction l; simpl; done. Qed.

(** Printing records: the loop over the memories returns and makes no
    call. *)
Lemma performs_print_records (l : list PyValue)
    (fallback : PyValue → PyValue) (line : nat → PyValue → string) :
  Forall (λ m, is_dict m = true) l →
  performs
    (let* elements := lift_s (iterate (VList l)) in
     for_each (enumerate elements 1)
       (fun '(i, memory) =>
          let* memory_text :=
            lift_s (get_memory memory (fallback memory)) in
          print (line i memory_text)))
    (λ _, True) [] [].
Proof.
  intros Hl. simpl iterate.
  eapply performs_quiet_bind; [apply performs_lift|]. intros ? ->.
  match goal with
  | |- performs (for_each ?xs ?body) _ _ _ =>
      assert (Forall (λ x, performs (body x) (λ _, True) [] []) xs) as Hturns
  end.
  { eapply Forall_impl; [apply (Forall_enumerate _ _ 1 Hl)|].
    intros [i memory] Hd. simpl in Hd. destruct memory; try discriminate Hd.
    simpl get_memory.
    eapply performs_quiet_bind; [apply performs_lift|]. intros ? ->.
    apply performs_print. }
  apply performs_for_each in Hturns. by rewrite !concat_map_nil in Hturns.
Qed.

Lemma performs_await_search (self : MemoryClient.t) (cl : Mem0Client)
    (query : string) (user_id agent_id : option string) (limit : Z) :
  MemoryClient.enabled self = true →
  MemoryClient.client self = Some cl →
  answers_records cl →
  performs (await (MemoryClient.search self query user_id agent_id limit))
    records [search_request query user_id agent_id limit] [].
Proof.
  intros Hen Hcl (Hs & _ & _) s. unfold await.
  rewrite (search_run _ _ _ _ _ _ _ Hen Hcl). cbv zeta.
  destruct (Hs (mem0_calls (world (process s))) query agent_id limit
              {["user_id" := of_optional user_id]})
    as (d & r & R & Hr & Hrec).
  unfold search_request at 1. rewrite R. simpl extract_results. rewrite Hr.
  simpl default. destruct Hrec as (l & -> & Hl). simpl len.
  eexists _, _. split; [reflexivity|].
  split; [by exists l|]. split; simpl; [done | by rewrite app_nil_r].
Qed.

Lemma performs_await_get_all (self : MemoryClient.t) (cl : Mem0Client)
    (user_id agent_id : option string) (limit : Z) :
  MemoryClient.enabled self = true →
  MemoryClient.client self = Some cl →
  answers_records cl →
  performs (await (MemoryClient.get_all self user_id agent_id limit))
    records [Mem0_get_all user_id limit] [].
Proof.
  intros Hen Hcl (_ & Hg & _) s. unfold await.
  rewrite (get_all_run _ _ _ _ _ _ Hen Hcl). cbv zeta.
  destruct (Hg (mem0_calls (world (process s))) user_id limit)
    as (r & R & l & -> & Hl).
  rewrite R.
  eexists _, _. split; [reflexivity|].
  split; [by exists l|]. split; simpl; [done | by rewrite app_nil_r].
Qed.

Lemma test_metadata_truthy (h : list dict) :
  truthy_dict
    (h ++ [{["test" := VBool true; "timestamp" := VStr "2024-01-01"]}])
    (Some (length h)) = true.
Proof.
  simpl. rewrite lookup_new_dict. apply negb_true_iff, bool_decide_eq_false.
  intros E. apply (f_equal (λ m : dict, m !! "test")) in E. discriminate E.
Qed.

(** One turn of the loop over the queries. *)
Lemma performs_query_turn (self : MemoryClient.t) (cl : Mem0Client)
    (str : PyValue → string) (query : string) :
  MemoryClient.enabled self = true →
  MemoryClient.client self = Some cl →
  answers_records cl →
  performs
    (print (newline +:+ "🔍 Query: '" +:+ query +:+ "'") >>>
     let* memories :=
       await (MemoryClient.search self query (Some test_user_id)
                (Some test_agent_id) 3) in
     if truthy_value memories then
       let* n := lift_s (len memories) in
       print ("   Found " +:+ pretty n +:+ " relevant memories:") >>>
       let* elements := lift_s (iterate memories) in
       for_each (enumerate elements 1)
         (fun '(i, memory) =>
            let* memory_text := lift_s (get_memory memory memory) in
            print ("   " +:+ pretty i +:+ ". " +:+ str memory_text))
     else
       print "   No memories found")
    (λ _, True)
    [search_request query (Some test_user_id) (Some test_agent_id) 3] [].
Proof.
  intros Hen Hcl Hcl'.
  eapply performs_quiet_bind; [apply performs_print|]. intros _ _.
  eapply (performs_bind _ _ _ _ [_] [] [] []);
    [by apply (performs_await_search self cl)|].
  intros memories (l & -> & Hl).
  destruct l as [|m l]; simpl truthy_value; cbv iota.
  - apply performs_print.
  - simpl len.
    eapply performs_quiet_bind; [apply performs_lift|]. intros ? ->.
    eapply performs_quiet_bind; [apply performs_print|]. intros _ _.
    exact (performs_print_records (m :: l) (λ memory, memory)
             (λ i t, "   " +:+ pretty i +:+ ". " +:+ str t) Hl).
Qed.

Lemma ends_with_bind {A} (m : Sc A) (k : A → Sc unit) (s s1 : Script) (a : A)
    (r : outcome unit) (P : Script → Prop) :
  m s = (Return a, s1) → ends_with (k a s1) r P → ends_with (sbind m k s) r P.
Proof. intros Run. unfold sbind. by rewrite Run. Qed.

Ltac script_run tac :=
  match goal with
  | |- ends_with (sbind ?m ?k ?s) ?r ?P =>
      refine (ends_with_bind m k s _ _ r P _ _);
      [tac | cbv beta; cbn [process stdout slept]]
  end.

Ltac script_start :=
  match goal with
  | |- ∃ s', ?x = (?r, s') ∧ ?P => change (ends_with x r (λ s', P))
  end.

Lemma performs_skip : performs (sret tt) (λ _, True) [] [].
Proof.
  apply (performs_weaken _ _ _ _ _ (performs_sret tt)). done.
Qed.

Ltac script_quiet :=
  eapply performs_quiet_bind;
  [first [apply performs_print | apply performs_lift] | intros ? ?].

(** X15.  A complete run.  With an enabled gateway whose client answers with
    records, the script returns after one [add], one [search] for each of
    the four queries, one [get_all] and one [search] for another user, in
    this order, and one sleep of three seconds; [main] returns without
    [sys.exit]. *)
Theorem test_script_calls (env : Env) (str : PyValue → string) (s : Script)
    (r : nat) (self : MemoryClient.t) (cl : Mem0Client) :
  let first := get_memory_client env (process s) in
  fst first = Return (Some r) →
  objects (snd first) !! r = Some self →
  MemoryClient.enabled self = true →
  MemoryClient.client self = Some cl →
  answers_records cl →
  (∃ s',
     test_memory_client env str s = (Return tt, s') ∧
     calls_made (world (snd first)) (world (process s'))
       = test_calls (length (heap (world (snd first)))) ∧
     slept s' = slept s ++ [3]) ∧
  fst (main env str s) = Returns.
Proof.
  intros first Hfirst Hobj Hen Hcl Hrec. subst first.
  destruct (get_memory_client env (process s)) as [ret p1] eqn:Hacc.
  simpl in Hfirst, Hobj |- *. subst ret.
  match goal with
  | |- ?T ∧ _ => assert T as (s' & Run & Hcalls & Hslept)
  end;
  [|split; [by exists s' | unfold main; by rewrite Run]].
  script_start.
  unfold test_memory_client.
  do 3 script_run ltac:(reflexivity).
  script_run ltac:(unfold in_process; simpl process; by rewrite Hacc).
  script_run ltac:(unfold attributes; simpl; by rewrite Hobj).
  rewrite Hen. change (negb true) with false. cbv iota.
  do 5 script_run ltac:(reflexivity).
  script_run ltac:(
    unfold await; simpl process; simpl world;
    rewrite (add_run _ _ _ _ _ _ _ Hen Hcl); cbv zeta;
    simpl heap; simpl mem0_calls;
    destruct Hrec as (_ & _ & Hadd); unfold add_request;
    edestruct Hadd as [v ->]; reflexivity).
  cbv iota.
  match goal with
  | |- ends_with (?m ?sk) _ _ =>
      eassert (performs m (λ _, True) _ _) as Htail;
      [|destruct (Htail sk) as ([] & s' & Run & _ & [Ec Es])]
  end.
  { do 2 script_quiet.
    eapply performs_bind; [apply performs_sleep | intros _ _].
    do 3 script_quiet.
    eapply performs_bind.
    { apply (performs_for_each search_queries _
               (λ query, [search_request query (Some test_user_id)
                            (Some test_agent_id) 3])
               (λ _, [])).
      apply Forall_true. intros query.
      by apply (performs_query_turn self cl). }
    intros _ _. do 3 script_quiet.
    eapply performs_bind; [by apply (performs_await_get_all self cl)|].
    intros all_memories (l & -> & Hl). simpl len.
    eapply performs_quiet_bind; [apply performs_lift|]. intros ? ->.
    script_quiet.
    eapply (performs_quiet_bind _ _ (λ _, True)).
    { destruct l as [|m l]; simpl truthy_value; cbv iota.
      - apply performs_skip.
      - script_quiet.
        exact (performs_print_records (m :: l) (λ memory, VStr (str memory))
                 (λ i t, "  " +:+ pretty i +:+ ". " +:+ str t) Hl). }
    intros _ _. do 3 script_quiet.
    eapply performs_bind; [by apply (performs_await_search self cl)|].
    intros other (l' & -> & Hl'). simpl len.
    eapply performs_quiet_bind; [apply performs_lift|]. intros ? ->.
    script_quiet.
    eapply (performs_quiet_bind _ _ (λ _, True)).
    { destruct l'; simpl truthy_value; cbv iota; apply performs_print. }
    intros _ _. do 2 script_quiet. apply performs_print. }
  exists s'. split; [exact Run|].
  cbn [process world mem0_calls slept] in Ec, Es. split; [|exact Es].
  apply calls_made_app. rewrite Ec.
  unfold submitted_ref, provided, items.
  rewrite test_metadata_truthy, lookup_new_dict.
  rewrite <- app_assoc. reflexivity.
Qed.

Lemma alice_answers_records : answers_records Examples.alice_client.
Proof.
  split_and!.
  - intros. eexists _, _. split; [reflexivity|]. split; [reflexivity|].
    eexists. split; [reflexivity|]. by repeat constructor.
  - intros. eexists. split; [reflexivity|].
    eexists. split; [reflexivity|]. by repeat constructor.
  - intros. by eexists.
Qed.

Lemma test_script_calls_witness :
  (∃ s',
     test_memory_client Examples.env_ok type_name
       (mkScript (imported Examples.empty_world) [] []) = (Return tt, s') ∧
     calls_made
       (world (snd (get_memory_client Examples.env_ok
                      (imported Examples.empty_world))))
       (world (process s'))
       = test_calls 0 ∧
     slept s' = [3]) ∧
  fst (main Examples.env_ok type_name
         (mkScript (imported Examples.empty_world) [] [])) = Returns.
Proof.
  exact (test_script_calls Examples.env_ok type_name
           (mkScript (imported Examples.empty_world) [] []) 0%nat
           (Examples.gateway Examples.alice_client) Examples.alice_client
           eq_refl eq_refl eq_refl eq_refl alice_answers_records).
Defined.

(** X16.  The script on a disabled gateway: it prints its diagnosis and
    returns; the process is as the accessor left it (no operation of the
    gateway was called) and no sleep was taken.  The line on the library
    shows the [enabled] flag, so it reads [False] also when the library
    is installed and only the key is missing. *)
Theorem test_script_disabled (env : Env) (str : PyValue → string)
    (s : Script) (r : nat) (self : MemoryClient.t) :
  let first := get_memory_client env (process s) in
  fst first = Return (Some r) →
  objects (snd first) !! r = Some self →
  MemoryClient.enabled self = false →
  test_memory_client env str s
    = (Return tt,
       mkScript (snd first)
         (stdout s ++
          [str_mul "=" 60; "Testing Memory Client"; str_mul "=" 60;
           newline +:+ "❌ Memory client is NOT enabled";
           "Reasons:";
           "  - mem0 library installed: False";
           "  - API key configured: "
             +:+ (if truthy (MemoryClient.api_key self) then "Yes" else "No");
           newline +:+ "To enable memory:";
           "  1. Install mem0: pip install mem0";
           "  2. Set MEMO_API_KEY in your .env file"])
         (slept s)).
Proof.
  intros first Hfirst Hobj Hoff. subst first.
  destruct (get_memory_client env (process s)) as [ret p1] eqn:Hacc.
  simpl in Hfirst, Hobj |- *. subst ret.
  match goal with
  | |- ?x = (?r, ?X) =>
      enough (ends_with x r (λ s', s' = X)) as (? & -> & ->); [done|]
  end.
  unfold test_memory_client.
  do 3 script_run ltac:(reflexivity).
  script_run ltac:(unfold in_process; simpl process; by rewrite Hacc).
  script_run ltac:(unfold attributes; simpl; by rewrite Hobj).
  rewrite Hoff. change (negb false) with true. cbv iota.
  do 7 script_run ltac:(reflexivity).
  eexists. split; [reflexivity|]. simpl. by rewrite <- !app_assoc.
Qed.

Lemma test_script_disabled_witness :
  stdout (snd (test_memory_client
                 (mkEnv true None (fun _ _ => Return Examples.alice_client))
                 type_name (mkScript (imported Examples.empty_world) [] [])))
    !! 5%nat
    = Some "  - mem0 library installed: False" ∧
  mem0_calls (world (process (snd (test_memory_client
                 (mkEnv true None (fun _ _ => Return Examples.alice_client))
                 type_name (mkScript (imported Examples.empty_world) [] [])))))
    = [].
Proof.
  rewrite (test_script_disabled
             (mkEnv true None (fun _ _ => Return Examples.alice_client))
             type_name (mkScript (imported Examples.empty_world) [] [])
             0%nat (MemoryClient.mk None false None)
             eq_refl eq_refl eq_refl).
  split; reflexivity.
Defined.

(** X17.  The script when [add] fails: it reports the failure and returns
    after this one call; nothing is searched and no sleep is taken. *)
Theorem test_script_stops_after_failed_add (env : Env)
    (str : PyValue → string) (s : Script) (r : nat) (self : MemoryClient.t)
    (cl : Mem0Client) (e : Exception) :
  let first := get_memory_client env (process s) in
  let w1 := world (snd first) in
  let request :=
    Mem0_add sample_conversation (Some test_user_id) (length (heap w1))
      test_metadata in
  fst first = Return (Some r) →
  objects (snd first) !! r = Some self →
  MemoryClient.enabled self = true →
  MemoryClient.client self = Some cl →
  respond cl (mem0_calls w1) request = Raise e →
  ∃ s',
    test_memory_client env str s = (Return tt, s') ∧
    calls_made w1 (world (process s')) = [request] ∧
    slept s' = slept s ∧
    last (stdout s') = Some "❌ Failed to add conversation to memory".
Proof.
  intros first w1 request Hfirst Hobj Hen Hcl Hfail.
  subst request w1 first.
  destruct (get_memory_client env (process s)) as [ret p1] eqn:Hacc.
  simpl in Hfirst, Hobj, Hfail |- *. subst ret.
  script_start.
  unfold test_memory_client.
  do 3 script_run ltac:(reflexivity).
  script_run ltac:(unfold in_process; simpl process; by rewrite Hacc).
  script_run ltac:(unfold attributes; simpl; by rewrite Hobj).
  rewrite Hen. change (negb true) with false. cbv iota.
  do 5 script_run ltac:(reflexivity).
  script_run ltac:(
    unfold await; simpl process; simpl world;
    rewrite (add_run _ _ _ _ _ _ _ Hen Hcl); cbv zeta;
    simpl heap; simpl mem0_calls;
    unfold add_request, submitted_ref, provided, items;
    rewrite test_metadata_truthy, lookup_new_dict;
    change (merged _ _) with test_metadata;
    rewrite Hfail; reflexivity).
  cbv iota.
  script_run ltac:(reflexivity).
  eexists. split; [reflexivity|]. cbn [process world mem0_calls slept stdout].
  split_and!; [by apply calls_made_app | done | by rewrite last_snoc].
Qed.

Lemma test_script_stops_after_failed_add_witness :
  ∃ s',
    test_memory_client
      (mkEnv true (Some "m0-key") (fun _ _ => Return Examples.failing_client))
      type_name (mkScript (imported Examples.empty_world) [] [])
      = (Return tt, s') ∧
    slept s' = [] ∧
    last (stdout s') = Some "❌ Failed to add conversation to memory".
Proof.
  destruct (test_script_stops_after_failed_add
              (mkEnv true (Some "m0-key")
                 (fun _ _ => Return Examples.failing_client))
              type_name (mkScript (imported Examples.empty_world) [] [])
              0%nat (Examples.gateway Examples.failing_client)
              Examples.failing_client
              (mkException "ConnectionError" "connection refused")
              eq_refl eq_refl eq_refl eq_refl eq_refl)
    as (s' & Run & _ & Hs & Hout).
  exists s'. split_and!; [exact Run | exact Hs | exact Hout].
Defined.

Lemma ends_with_assoc {A B} (m : Sc A) (f : A → Sc B) (g : B → Sc unit)
    (s : Script) (r : outcome unit) (P : Script → Prop) :
  ends_with (sbind m (λ a, sbind (f a) g) s) r P →
  ends_with (sbind (sbind m f) g s) r P.
Proof.
  unfold sbind. by destruct (m s) as [[a|e] s'].
Qed.

Lemma ends_with_raise {A} (m : Sc A) (k : A → Sc unit) (s s1 : Script)
    (e : Exception) (P : Script → Prop) :
  m s = (Raise e, s1) → P s1 → ends_with (sbind m k s) (Raise e) P.
Proof. intros Run HP. exists s1. unfold sbind. by rewrite Run. Qed.

Ltac script_assoc :=
  match goal with
  | |- ends_with (sbind (sbind ?m ?f) ?g ?s) ?r ?P =>
      apply (ends_with_assoc m f g s r P); cbv beta
  end.

Lemma get_memory_of_non_record (memory fallback : PyValue) :
  is_dict memory = false →
  get_memory memory fallback
    = Raise (AttributeError ("'" +:+ type_name memory
                             +:+ "' object has no attribute 'get'")).
Proof. by destruct memory. Qed.

(** X18.  A memory that is no mapping ends the script: when the first search
    returns a list whose first element is, say, a string, the loop that
    prints the memories raises [AttributeError] on [memory.get], after the
    [add] and that one [search]; [main] then exits with status 1. *)
Theorem test_script_crashes_on_non_record (env : Env)
    (str : PyValue → string) (s : Script) (r : nat) (self : MemoryClient.t)
    (cl : Mem0Client) (v m : PyValue) (d : dict) (l : list PyValue) :
  let first := get_memory_client env (process s) in
  let w1 := world (snd first) in
  let added :=
    Mem0_add sample_conversation (Some test_user_id) (length (heap w1))
      test_metadata in
  let searched :=
    search_request "What's my name?" (Some test_user_id)
      (Some test_agent_id) 3 in
  fst first = Return (Some r) →
  objects (snd first) !! r = Some self →
  MemoryClient.enabled self = true →
  MemoryClient.client self = Some cl →
  respond cl (mem0_calls w1) added = Return v →
  respond cl (mem0_calls w1 ++ [added]) searched = Return (VDict d) →
  d !! "results" = Some (VList (m :: l)) →
  is_dict m = false →
  (∃ s',
     test_memory_client env str s
       = (Raise (AttributeError ("'" +:+ type_name m
                                 +:+ "' object has no attribute 'get'")),
          s') ∧
     calls_made w1 (world (process s')) = [added; searched]) ∧
  fst (main env str s) = Exits 1.
Proof.
  intros first w1 added searched Hfirst Hobj Hen Hcl Hadd Hsearch Hres Hm.
  subst added searched w1 first.
  destruct (get_memory_client env (process s)) as [ret p1] eqn:Hacc.
  simpl in Hfirst, Hobj, Hadd, Hsearch |- *. subst ret.
  match goal with
  | |- ?T ∧ _ => assert T as (s' & Run & Hcalls)
  end.
  { script_start.
    unfold test_memory_client.
    do 3 script_run ltac:(reflexivity).
    script_run ltac:(unfold in_process; simpl process; by rewrite Hacc).
    script_run ltac:(unfold attributes; simpl; by rewrite Hobj).
    rewrite Hen. change (negb true) with false. cbv iota.
    do 5 script_run ltac:(reflexivity).
    script_run ltac:(
      unfold await; simpl process; simpl world;
      rewrite (add_run _ _ _ _ _ _ _ Hen Hcl); cbv zeta;
      simpl heap; simpl mem0_calls;
      unfold add_request, submitted_ref, provided, items;
      rewrite test_metadata_truthy, lookup_new_dict;
      change (merged _ _) with test_metadata;
      rewrite Hadd; reflexivity).
    cbv iota.
    do 6 script_run ltac:(reflexivity).
    unfold search_queries. cbn [for_each].
    repeat script_assoc. script_run ltac:(reflexivity).
    repeat script_assoc.
    script_run ltac:(
      unfold await; cbn [process world];
      rewrite (search_run _ _ _ _ _ _ _ Hen Hcl); cbv zeta;
      cbn [mem0_calls]; rewrite Hsearch;
      cbn [extract_results]; rewrite Hres; reflexivity).
    cbn [default from_option id truthy_value]. cbv iota.
    repeat script_assoc. script_run ltac:(reflexivity).
    repeat script_assoc. script_run ltac:(reflexivity).
    repeat script_assoc. script_run ltac:(reflexivity).
    cbn [enumerate for_each].
    repeat script_assoc.
    eapply ends_with_raise.
    - unfold lift_s. by rewrite (get_memory_of_non_record _ _ Hm).
    - cbn [process world mem0_calls].
      apply calls_made_app. unfold after_call. cbn [mem0_calls].
      by rewrite <- app_assoc. }
  split; [by exists s'|]. unfold main. by rewrite Run.
Qed.

Lemma test_script_crashes_on_non_record_witness :
  fst (main
         (mkEnv true (Some "m0-key")
            (fun _ _ =>
               Return
                 (mkMem0Client
                    (fun _ _ => Return (VDict {["results" := VList [VStr "Name is Alice"]]})))))
         type_name (mkScript (imported Examples.empty_world) [] []))
    = Exits 1.
Proof.
  refine (proj2 (test_script_crashes_on_non_record
                   (mkEnv true (Some "m0-key")
                      (fun _ _ =>
                         Return
                           (mkMem0Client
                              (fun _ _ => Return (VDict {["results" := VList [VStr "Name is Alice"]]})))))
                   type_name (mkScript (imported Examples.empty_world) [] [])
                   0%nat
                   (MemoryClient.mk (Some "m0-key") true
                      (Some (mkMem0Client
                               (fun _ _ => Return (VDict {["results" := VList [VStr "Name is Alice"]]})))))
                   (mkMem0Client
                      (fun _ _ => Return (VDict {["results" := VList [VStr "Name is Alice"]]})))
                   (VDict {["results" := VList [VStr "Name is Alice"]]})
                   (VStr "Name is Alice")
                   {["results" := VList [VStr "Name is Alice"]]} []
                   eq_refl eq_refl eq_refl eq_refl eq_refl eq_refl _ eq_refl)).
  reflexivity.
Defined.
